(** * legabot: the PDF form pipeline of [lambda_function.py]

    A shallow embedding of the three document stages ([fill_pdf],
    [set_fields_readonly], [set_button_visibility]) and of the handler that
    chains them ([lambda_handler]), followed by the properties of the
    pipeline.

    Conventions of the embedding.
    - A pdfrw dictionary ([PdfDict]) is a finite map from key text
      (["/T"], ["/Ff"], ...) to values; [annot.update(PdfDict(K=v))] is
      an insertion at ["/K"].
    - Every atom pdfrw hands out ([PdfObject], [PdfName], [PdfString]) is a
      subclass of Python's [str] holding the token as it stands in the file,
      so it is a [PdfStr] here, as is a plain [str] stored by the code; an
      [int] stored by the code is a [PdfInt].
    - Python exceptions are the [Raise] results of an error monad.
    - [PdfReader]/[PdfWriter] belong to pdfrw: a file of [/tmp] holds the
      object graph that was written to it, and reading gives it back (pdfrw
      gives a stored [int] back as its decimal token and a stored [str] as
      a delimited PDF string: the same content, which no stage reads in a
      way that tells the two apart).
    - Strings are sequences of characters of code 0 to 255. *)

From stdpp Require Import gmap strings list fin_maps pretty.
From Stdlib Require Import ZArith Ascii String.

Set Warnings "-register-all".

Open Scope Z_scope.
Open Scope string_scope.

(** ** Exceptions *)

Inductive PyError : Type :=
| TypeError
| ValueError
| AttributeError
| KeyError
| IOError
| PdfParseError
| S3Error.

Inductive Result (A : Type) : Type :=
| Ok (a : A)
| Raise (e : PyError).

Arguments Ok {A} a.
Arguments Raise {A} e.

#[global] Instance Result_ret : MRet Result := fun A a => Ok a.
#[global] Instance Result_bind : MBind Result := fun A B f m =>
  match m with
  | Ok a => f a
  | Raise e => Raise e
  end.

#[global] Instance PyError_eq_dec : EqDecision PyError.
Proof. solve_decision. Defined.

(** ** Python values of the request body

    What [json.loads] builds: [None], [bool], [int], [str], [list] and
    [dict] (in insertion order, one binding per key).  JSON numbers with a
    fraction or an exponent ([float]) are outside the model. *)

Inductive JValue : Type :=
| JNull
| JBool (b : bool)
| JInt (n : Z)
| JStr (s : string)
| JList (items : list JValue)
| JDict (entries : list (string * JValue)).

(** [d.get(key)] / [d[key]] of a [dict]. *)
Fixpoint dict_get (entries : list (string * JValue)) (key : string) : option JValue :=
  match entries with
  | [] => None
  | (k, v) :: rest => if String.eqb k key then Some v else dict_get rest key
  end.

(** Truth value of a Python object ([if x:]). *)
Definition py_truthy (v : JValue) : bool :=
  match v with
  | JNull => false
  | JBool b => b
  | JInt n => negb (n =? 0)%Z
  | JStr s => negb (String.eqb s "")
  | JList items => match items with [] => false | _ => true end
  | JDict entries => match entries with [] => false | _ => true end
  end.

(** *** [str] and [repr] *)

Fixpoint contains_char (c : ascii) (s : string) : bool :=
  match s with
  | EmptyString => false
  | String c' s' => Ascii.eqb c c' || contains_char c s'
  end.

Definition hex_digit (n : N) : ascii :=
  match n with
  | 0%N => "0" | 1%N => "1" | 2%N => "2" | 3%N => "3" | 4%N => "4"
  | 5%N => "5" | 6%N => "6" | 7%N => "7" | 8%N => "8" | 9%N => "9"
  | 10%N => "a" | 11%N => "b" | 12%N => "c" | 13%N => "d" | 14%N => "e"
  | _ => "f"
  end%char.

(** One character of the [repr] of a [str] delimited by [quote]. *)
Definition repr_char (quote c : ascii) : string :=
  let n := N_of_ascii c in
  if Ascii.eqb c "\"%char then "\\"
  else if Ascii.eqb c quote then String "\"%char (String c "")
  else if (n =? 10)%N then "\n"
  else if (n =? 13)%N then "\r"
  else if (n =? 9)%N then "\t"
  else if ((n <? 32)%N || (127 <=? n)%N && (n <=? 160)%N || (n =? 173)%N)%bool
       then String "\"%char (String "x"%char
              (String (hex_digit (n / 16)) (String (hex_digit (n mod 16)) "")))
  else String c "".

Fixpoint repr_chars (quote : ascii) (s : string) : string :=
  match s with
  | EmptyString => ""
  | String c s' => repr_char quote c ++ repr_chars quote s'
  end.

(** [repr(s)] of a [str]: single quotes, unless the text has a single quote
    and no double quote. *)
Definition repr_str (s : string) : string :=
  let dquote := ascii_of_nat 34 in
  let quote :=
    if (contains_char "'"%char s && negb (contains_char dquote s))%bool
    then dquote else "'"%char in
  String quote (repr_chars quote s ++ String quote "").

Fixpoint py_repr (v : JValue) : string :=
  match v with
  | JNull => "None"
  | JBool true => "True"
  | JBool false => "False"
  | JInt n => pretty_Z n
  | JStr s => repr_str s
  | JList items =>
      "[" ++ String.concat ", " (List.map py_repr items) ++ "]"
  | JDict entries =>
      "{" ++ String.concat ", "
               (List.map (fun kv => match kv with
                                    | (k, x) => repr_str k ++ ": " ++ py_repr x
                                    end) entries) ++ "}"
  end.

(** [str(v)]. *)
Definition py_str (v : JValue) : string :=
  match v with
  | JStr s => s
  | _ => py_repr v
  end.


(** ** PDF objects as pdfrw presents them *)

Inductive PdfValue : Type :=
| PdfStr (s : string)   (* a [str]: a token of the file, or text stored by the code *)
| PdfInt (n : Z).       (* an [int] stored by the code *)

#[global] Instance PdfValue_eq_dec : EqDecision PdfValue.
Proof. solve_decision. Defined.

Abbreviation PdfDict := (gmap string PdfValue).

(** A page: its [/Annots] array when it has one, and the entries of the page
    dictionary that no stage reads. *)
Record Page : Type := {
  Annots : option (list PdfDict);
  page_entries : PdfDict
}.

(** [PdfReader(path)]: the pages, and [Root.AcroForm] when the catalog has one. *)
Record Document : Type := {
  pages : list Page;
  AcroForm : option PdfDict
}.

(** [PdfName.Widget] *)
Definition Widget : PdfValue := PdfStr "/Widget".

(** *** The Python operations the stages apply to atoms *)

(** Truth value of [d.get(key)]: [None] and the empty [str] and [0] are false. *)
Definition truthy (o : option PdfValue) : bool :=
  match o with
  | None => false
  | Some (PdfStr s) => negb (String.eqb s "")
  | Some (PdfInt n) => negb (n =? 0)%Z
  end.

(** [s[1:-1]] of a [str]: without its first and last character. *)
Definition str_slice_1_m1 (s : string) : string :=
  String.substring 1 (String.length s - 2) s.

(** [x[1:-1]]: neither [None] nor an [int] is subscriptable. *)
Definition slice_1_m1 (o : option PdfValue) : Result string :=
  match o with
  | Some (PdfStr s) => Ok (str_slice_1_m1 s)
  | _ => Raise TypeError
  end.

(** The blanks [int] strips: tab to carriage return, space, next line and
    no-break space. *)
Definition is_space (c : ascii) : bool :=
  let n := N_of_ascii c in
  ((9 <=? n) && (n <=? 13) || (n =? 32) || (n =? 133) || (n =? 160))%N.

Definition digit_val (c : ascii) : option Z :=
  let n := N_of_ascii c in
  if ((48 <=? n) && (n <=? 57))%N then Some (Z.of_N n - 48)%Z else None.

Fixpoint skip_spaces (s : string) : string :=
  match s with
  | EmptyString => ""
  | String c s' => if is_space c then skip_spaces s' else s
  end.

Fixpoint all_spaces (s : string) : bool :=
  match s with
  | EmptyString => true
  | String c s' => is_space c && all_spaces s'
  end.

(** Decimal digits, single underscores between them, then blanks only.
    [after_digit] tells whether the previous character was a digit. *)
Fixpoint int_digits (s : string) (acc : Z) (after_digit : bool) : option Z :=
  match s with
  | EmptyString => if after_digit then Some acc else None
  | String c s' =>
      match digit_val c with
      | Some d => int_digits s' (10 * acc + d)%Z true
      | None =>
          if after_digit then
            if Ascii.eqb c "_"%char then int_digits s' acc false
            else if all_spaces s then Some acc else None
          else None
      end
  end.

(** [int(s)] of a [str], base 10, on 8-bit text. *)
Definition int_of_str (s : string) : Result Z :=
  let unsigned (negative : bool) (digits : string) :=
    match int_digits digits 0 false with
    | Some n => Ok (if negative then (- n)%Z else n)
    | None => Raise ValueError
    end in
  match skip_spaces s with
  | String "-"%char s' => unsigned true s'
  | String "+"%char s' => unsigned false s'
  | s' => unsigned false s'
  end.

(** [int(obj)] *)
Definition py_int (v : PdfValue) : Result Z :=
  match v with
  | PdfInt n => Ok n
  | PdfStr s => int_of_str s
  end.


(** [annot['/Subtype'] == PdfName.Widget and annot.get('/T')], as a condition. *)
Definition is_named_widget (annot : PdfDict) : bool :=
  bool_decide (annot !! "/Subtype" = Some Widget) && truthy (annot !! "/T").

(** [if pdf.Root.AcroForm: pdf.Root.AcroForm.update(PdfDict(NeedAppearances=PdfObject('true')))]:
    an absent entry and an empty dictionary are both false. *)
Definition need_appearances (acroform : option PdfDict) : option PdfDict :=
  match acroform with
  | Some form =>
      if bool_decide (form = ∅) then Some form
      else Some (<["/NeedAppearances" := PdfStr "true"]> form)
  | None => None
  end.

(** The loop [for page in pdf.pages] of each stage, by the body it runs on
    a page, and the [AcroForm] update that follows it. *)
Definition each_page (body : Page -> Result Page) (pdf : Document) : Result Document :=
  pages' ← mapM body (pages pdf);
  mret {| pages := pages'; AcroForm := need_appearances (AcroForm pdf) |}.

(** The loop [for annot in annots] of [fill_pdf] and [set_fields_readonly],
    by the body it runs on an annotation (which updates it in place); a page
    without [/Annots], or with an empty array, is skipped
    ([if not annots: continue]). *)
Definition each_annot (body : PdfDict -> Result PdfDict) (page : Page) : Result Page :=
  match Annots page with
  | Some ((_ :: _) as annots) =>
      annots' ← mapM body annots;
      mret {| Annots := Some annots'; page_entries := page_entries page |}
  | _ => mret page
  end.

(** ** [fill_pdf] *)

Definition fill_annot (data : list (string * JValue)) (annot : PdfDict) : Result PdfDict :=
  if is_named_widget annot then
    key ← slice_1_m1 (annot !! "/T");
    match dict_get data key with
    | Some value =>
        mret (<["/V" := PdfStr (py_str value)]>
                (<["/AS" := PdfStr (py_str value)]> annot))
    | None => mret annot
    end
  else mret annot.

Definition fill_page (data : list (string * JValue)) : Page -> Result Page :=
  each_annot (fill_annot data).

(** What [fill_pdf] does to the document between [PdfReader] and
    [PdfWriter().write]. *)
Definition fill_document (data : list (string * JValue)) : Document -> Result Document :=
  each_page (fill_page data).

(** ** [set_fields_readonly] *)

(** [int(existing_obj) if existing_obj is not None else 0], for
    [existing_obj = annot.get(PdfName('Ff'))]. *)
Definition existing_flags (annot : PdfDict) : Result Z :=
  match annot !! "/Ff" with
  | Some existing_obj => py_int existing_obj
  | None => mret 0%Z
  end.

Definition readonly_annot (fields : option (list string)) (annot : PdfDict) : Result PdfDict :=
  if is_named_widget annot then
    key ← slice_1_m1 (annot !! "/T");
    if match fields with
       | None => true
       | Some names => bool_decide (key ∈ names)
       end
    then
      flags ← existing_flags annot;
      mret (<["/Ff" := PdfInt (Z.lor flags 1)]> annot)
    else mret annot
  else mret annot.

Definition readonly_page (fields : option (list string)) : Page -> Result Page :=
  each_annot (readonly_annot fields).

(** What [set_fields_readonly] does to the document between [PdfReader] and
    [PdfWriter().write]. *)
Definition readonly_document (fields : option (list string)) : Document -> Result Document :=
  each_page (readonly_page fields).

(** ** [set_button_visibility] *)

Fixpoint is_substring (needle hay : string) : bool :=
  String.prefix needle hay
  || match hay with
     | EmptyString => false
     | String _ hay' => is_substring needle hay'
     end.

(** [key in container], for a [str] key. *)
Definition py_contains (key : string) (container : JValue) : Result bool :=
  match container with
  | JDict entries => Ok (bool_decide (is_Some (dict_get entries key)))
  | JList items =>
      Ok (existsb (fun x => match x with
                            | JStr s => String.eqb s key
                            | _ => false
                            end) items)
  | JStr s => Ok (is_substring key s)
  | JNull | JBool _ | JInt _ => Raise TypeError
  end.

(** [container[key]], for a [str] key. *)
Definition py_getitem (container : JValue) (key : string) : Result JValue :=
  match container with
  | JDict entries =>
      match dict_get entries key with
      | Some x => Ok x
      | None => Raise KeyError
      end
  | _ => Raise TypeError
  end.

(** One turn of the loop over [annots]: what it appends to [new_annots]. *)
Definition visibility_annot (visibility_map : JValue) (annot : PdfDict)
  : Result (option PdfDict) :=
  if is_named_widget annot then
    key ← slice_1_m1 (annot !! "/T");
    listed ← py_contains key visibility_map;
    if listed : bool then
      shown ← py_getitem visibility_map key;
      if py_truthy shown
      then mret (Some (<["/F" := PdfInt 0]> annot))
      else mret None
    else mret (Some annot)
  else mret (Some annot).

Fixpoint new_annots (visibility_map : JValue) (annots : list PdfDict)
  : Result (list PdfDict) :=
  match annots with
  | [] => mret []
  | annot :: rest =>
      kept ← visibility_annot visibility_map annot;
      rest' ← new_annots visibility_map rest;
      mret (match kept with
            | Some annot' => annot' :: rest'
            | None => rest'
            end)
  end.

(** The body of the page loop.  When the new list is empty the code calls
    [page.pop('/Annots', None)]; [pop] of pdfrw's [PdfDict] takes the key
    only, so the call with a default raises [TypeError]. *)
Definition visibility_page (visibility_map : JValue) (page : Page) : Result Page :=
  match Annots page with
  | Some ((_ :: _) as annots) =>
      kept ← new_annots visibility_map annots;
      match kept with
      | [] => Raise TypeError     (* page.pop('/Annots', None) *)
      | _ :: _ =>                 (* page.Annots = new_annots *)
          mret {| Annots := Some kept; page_entries := page_entries page |}
      end
  | _ => mret page
  end.

(** What [set_button_visibility] does to the document between [PdfReader]
    and [PdfWriter().write]. *)
Definition visibility_document (visibility_map : JValue) : Document -> Result Document :=
  each_page (visibility_page visibility_map).

(** ** Files and the bucket

    The handler works on files of [/tmp] and on S3 objects; both hold
    documents.  A computation takes the world and gives the world back with
    its result; after an exception the world stays as the exception found it. *)

Record World : Type := {
  tmp : gmap string Document;
  s3_objects : gmap (string * string) Document
}.

Definition IO (A : Type) : Type := World -> World * Result A.

#[global] Instance IO_ret : MRet IO := fun A a w => (w, Ok a).
#[global] Instance IO_bind : MBind IO := fun A B f m w =>
  match m w with
  | (w', Ok a) => f a w'
  | (w', Raise e) => (w', Raise e)
  end.

Definition lift {A : Type} (r : Result A) : IO A := fun w => (w, r).

Definition PdfReader (fname : string) : IO Document := fun w =>
  (w, match tmp w !! fname with
      | Some pdf => Ok pdf
      | None => Raise PdfParseError
      end).

Definition PdfWriter_write (fname : string) (pdf : Document) : IO unit := fun w =>
  ({| tmp := <[fname := pdf]> (tmp w); s3_objects := s3_objects w |}, Ok tt).

(** The object an S3 request for [key] reaches: the key is to be a non-empty
    [str] naming an object of the bucket. *)
Definition s3_object (w : World) (bucket : string) (key : JValue) : option Document :=
  match key with
  | JStr k => if String.eqb k "" then None else s3_objects w !! (bucket, k)
  | _ => None
  end.

(** [s3.download_file(Bucket, Key, Filename)] *)
Definition s3_download_file (bucket : string) (key : JValue) (filename : string)
  : IO unit := fun w =>
  match s3_object w bucket key with
  | Some pdf =>
      ({| tmp := <[filename := pdf]> (tmp w); s3_objects := s3_objects w |}, Ok tt)
  | None => (w, Raise S3Error)
  end.

(** [s3.upload_file(Filename, Bucket, Key)] *)
Definition s3_upload_file (filename bucket key : string) : IO unit := fun w =>
  match tmp w !! filename with
  | Some pdf =>
      ({| tmp := tmp w; s3_objects := <[(bucket, key) := pdf]> (s3_objects w) |}, Ok tt)
  | None => (w, Raise IOError)
  end.

Definition fill_pdf (input_pdf_path output_pdf_path : string)
    (data : list (string * JValue)) : IO unit :=
  template ← PdfReader input_pdf_path;
  template' ← lift (fill_document data template);
  PdfWriter_write output_pdf_path template'.

Definition set_fields_readonly (pdf_in pdf_out : string)
    (fields : option (list string)) : IO unit :=
  pdf ← PdfReader pdf_in;
  pdf' ← lift (readonly_document fields pdf);
  PdfWriter_write pdf_out pdf'.

Definition set_button_visibility (pdf_in pdf_out : string)
    (visibility_map : JValue) : IO unit :=
  pdf ← PdfReader pdf_in;
  pdf' ← lift (visibility_document visibility_map pdf);
  PdfWriter_write pdf_out pdf'.

(** ** [lambda_handler] *)

Definition BUCKET_NAME : string := "2025-leagabot-1".
Definition TEMPLATE_KEY : string := "input/test.pdf".

(** The returned [dict]; [response_body] is the object given to [json.dumps]. *)
Record Response : Type := {
  statusCode : Z;
  response_body : JValue
}.

Section Handler.

(** [str(uuid.uuid4())] of this invocation, and the URL signer of the S3
    client, applied to bucket, key and [ExpiresIn]. *)
Variable uuid4 : string.
Variable generate_presigned_url : string -> string -> Z -> string.

Definition lambda_handler (body : JValue) : IO Response :=
  (* body.get needs a dict *)
  entries ← lift (match body with
                  | JDict entries => Ok entries
                  | _ => Raise AttributeError
                  end);
  let template_path := default (JStr TEMPLATE_KEY) (dict_get entries "template_path") in
  let input_pdf_path := "/tmp/template.pdf" in
  _ ← s3_download_file BUCKET_NAME template_path input_pdf_path;
  let filled_pdf_path := "/tmp/filled.pdf" in
  _ ← fill_pdf input_pdf_path filled_pdf_path entries;
  let locked_pdf_path := "/tmp/locked.pdf" in
  _ ← set_fields_readonly filled_pdf_path locked_pdf_path None;
  let visibility_map := default JNull (dict_get entries "visibility_map") in
  let visibility_pdf_path := "/tmp/visibility.pdf" in
  _ ← set_button_visibility locked_pdf_path visibility_pdf_path visibility_map;
  let output_key := "output/" ++ uuid4 ++ ".pdf" in
  _ ← s3_upload_file visibility_pdf_path BUCKET_NAME output_key;
  let url := generate_presigned_url BUCKET_NAME output_key 3600 in
  mret {| statusCode := 200; response_body := JDict [("url", JStr url)] |}.

End Handler.

(** ** Notions used in the statements *)

(** The annotations a page lists: none when it has no [/Annots]. *)
Definition annots_of (page : Page) : list PdfDict := default [] (Annots page).

(** The annotation at place [j] of page [i]. *)
Definition annot_at (pdf : Document) (i j : nat) : option PdfDict :=
  page ← pages pdf !! i; annots_of page !! j.

(** A Widget annotation with a [/T] entry, whose field name (the [key] the
    stages compute from the token [raw] of [/T]) is [key]. *)
Definition named_widget (annot : PdfDict) (key : string) : Prop :=
  annot !! "/Subtype" = Some Widget
  ∧ ∃ raw, annot !! "/T" = Some (PdfStr raw) ∧ raw ≠ "" ∧ key = str_slice_1_m1 raw.

(** The [/T] of the annotation is text when present, as [PdfReader] gives it
    (no stage stores a [/T]). *)
Definition text_name (annot : PdfDict) : Prop :=
  ∀ n, annot !! "/T" ≠ Some (PdfInt n).

(** An annotation a dictionary used as visibility map hides: a named widget
    whose name is mapped to a false value. *)
Definition hidden_by (entries : list (string * JValue)) (annot : PdfDict) : Prop :=
  ∃ key shown, named_widget annot key ∧ dict_get entries key = Some shown
               ∧ py_truthy shown = false.

(** No page loses all its annotations to the map: every page that lists
    annotations lists one that the map does not hide. *)
Definition no_page_emptied (entries : list (string * JValue)) (pdf : Document) : Prop :=
  Forall (fun page => annots_of page = []
                      ∨ ∃ annot, annot ∈ annots_of page ∧ ¬ hidden_by entries annot)
    (pages pdf).

(** A property of all the annotations of all the pages. *)
Definition all_annots (P : PdfDict -> Prop) (pdf : Document) : Prop :=
  Forall (fun page => Forall P (annots_of page)) (pages pdf).

Definition text_names : Document -> Prop := all_annots text_name.

(** The [/Ff] of every annotation, when present, reads as an integer. *)
Definition int_flags : Document -> Prop :=
  all_annots (fun annot => ∃ flags, existing_flags annot = Ok flags).

(** The template a request body asks for, and the three stages in a row as
    the handler runs them on it: the whole body as data, all fields
    read-only, and [body.get('visibility_map')]. *)
Definition template_path_of (entries : list (string * JValue)) : JValue :=
  default (JStr TEMPLATE_KEY) (dict_get entries "template_path").

Definition visibility_map_of (entries : list (string * JValue)) : JValue :=
  default JNull (dict_get entries "visibility_map").

Definition pipeline (entries : list (string * JValue)) (template : Document)
  : Result Document :=
  filled ← fill_document entries template;
  locked ← readonly_document None filled;
  visibility_document (visibility_map_of entries) locked.

(** The key the handler uploads to, and its answer. *)
Definition output_key_of (uuid4 : string) : string := "output/" ++ uuid4 ++ ".pdf".

Definition answer (uuid4 : string) (sign : string -> string -> Z -> string) : Response :=
  {| statusCode := 200;
     response_body := JDict [("url", JStr (sign BUCKET_NAME (output_key_of uuid4) 3600%Z))] |}.

(** ** Sample documents *)

(** A widget [/T (name)] with the given further entries. *)
Definition widget (name : string) (entries : PdfDict) : PdfDict :=
  <["/Subtype" := Widget]> (<["/T" := PdfStr ("(" ++ name ++ ")")]> entries).

(** A link annotation: not a form field. *)
Definition link : PdfDict := {["/Subtype" := PdfStr "/Link"]}.

(** One page with the widgets [name] and [signature], both with [/Ff 0] and
    [/F 0], and a form dictionary. *)
Definition two_widgets : Document := {|
  pages := [ {| Annots := Some [ widget "name" (<["/Ff" := PdfStr "0"]> {["/F" := PdfStr "0"]});
                                 widget "signature" (<["/Ff" := PdfStr "0"]> {["/F" := PdfStr "0"]}) ];
                page_entries := {["/Type" := PdfStr "/Page"]} |} ];
  AcroForm := Some {["/DA" := PdfStr "(/Helv 0 Tf 0 g)"]}
|}.

(** A page with a widget of flags 4 and a link, then a page without
    annotations. *)
Definition flagged : Document := {|
  pages := [ {| Annots := Some [ widget "name" {["/Ff" := PdfStr "4"]}; link ];
                page_entries := ∅ |};
             {| Annots := None; page_entries := ∅ |} ];
  AcroForm := Some {["/DA" := PdfStr "(/Helv 0 Tf 0 g)"]}
|}.

(** The pages of [two_widgets] under a form dictionary without entries
    ([/AcroForm << >>]). *)
Definition empty_form : Document := {|
  pages := pages two_widgets;
  AcroForm := Some ∅
|}.

(** A world whose bucket holds [two_widgets] as the default template, an
    invocation id and a signer. *)
Definition sample_world : World := {|
  tmp := ∅;
  s3_objects := {[(BUCKET_NAME, TEMPLATE_KEY) := two_widgets]}
|}.

Definition sample_uuid4 : string := "1b4e28ba-2fa1-41d2-883f-0016d3cca427".

Definition sample_sign (bucket key : string) (expires_in : Z) : string :=
  "https://" ++ bucket ++ ".s3.amazonaws.com/" ++ key
  ++ "?X-Amz-Expires=" ++ pretty_Z expires_in.

(** A template whose widgets bear the names of the reserved keys of the
    request, a bucket that holds it, and a request for it. *)
Definition reserved_names : Document := {|
  pages := [ {| Annots := Some [ widget "template_path" ∅; widget "visibility_map" ∅ ];
                page_entries := ∅ |} ];
  AcroForm := None
|}.

Definition reserved_world : World := {|
  tmp := ∅;
  s3_objects := {[(BUCKET_NAME, "forms/reserved.pdf") := reserved_names]}
|}.

Definition reserved_request : list (string * JValue) :=
  [ ("template_path", JStr "forms/reserved.pdf");
    ("visibility_map", JDict [("template_path", JBool true)]) ].

(** A page with a widget of flags 4, a widget whose [/Ff] is the real
    number [4.0] and a widget without name. *)
Definition mixed_flags : Document := {|
  pages := [ {| Annots := Some [ widget "name" {["/Ff" := PdfStr "4"]};
                                 widget "amount" {["/Ff" := PdfStr "4.0"]};
                                 {["/Subtype" := Widget]} ];
                page_entries := ∅ |} ];
  AcroForm := Some {["/DA" := PdfStr "(/Helv 0 Tf 0 g)"]}
|}.

(** The sample world after an earlier invocation left a file in [/tmp]. *)
Definition warm_world : World := {|
  tmp := {["/tmp/filled.pdf" := flagged]};
  s3_objects := s3_objects sample_world
|}.

(** A request for the default template with a name to fill and a field to
    hide. *)
Definition sample_request : list (string * JValue) :=
  [ ("name", JStr "Alice");
    ("visibility_map", JDict [("signature", JBool false)]) ].

(** * Properties *)

(** ** The Python primitives on sample inputs *)

Example py_str_samples :
  py_str (JStr "input/test.pdf") = "input/test.pdf"
  /\ py_str (JInt (-42)) = "-42"
  /\ py_str (JBool true) = "True"
  /\ py_str JNull = "None"
  /\ py_str (JDict [("signature", JBool false); ("it's", JList [JInt 1; JStr "a\b"])])
     = "{'signature': False, " ++ String (ascii_of_nat 34) "it's"
       ++ String (ascii_of_nat 34) ": [1, 'a\\b']}".
Proof. repeat split; vm_compute; reflexivity. Qed.

Example int_of_str_samples :
  int_of_str "4" = Ok 4%Z /\ int_of_str "-12" = Ok (-12)%Z
  /\ int_of_str "+007" = Ok 7%Z /\ int_of_str " 1_000 " = Ok 1000%Z
  /\ int_of_str "4.0" = Raise ValueError /\ int_of_str "" = Raise ValueError
  /\ int_of_str "1__0" = Raise ValueError /\ int_of_str "5_" = Raise ValueError
  /\ int_of_str "- 5" = Raise ValueError /\ int_of_str "(4)" = Raise ValueError.
Proof. repeat split; vm_compute; reflexivity. Qed.

(** ** The error monad *)

Lemma bind_Ok {A B : Type} (m : Result A) (f : A -> Result B) (b : B) :
  m ≫= f = Ok b ↔ ∃ a, m = Ok a ∧ f a = Ok b.
Proof.
  destruct m as [a|e]; simpl.
  - split; [eauto | intros (a' & [= <-] & ?); done].
  - split; [done | intros (a' & ? & _); done].
Qed.

Lemma mapM_Ok {A B : Type} (f : A -> Result B) (l : list A) (k : list B) :
  mapM f l = Ok k ↔ Forall2 (fun a b => f a = Ok b) l k.
Proof.
  revert k. induction l as [|a l IH]; intros k; simpl.
  - split; [intros [= <-]; constructor | by inversion 1].
  - split.
    + intros (b & Hb & (k' & Hk' & [= <-])%bind_Ok)%bind_Ok.
      constructor; [done | by apply IH].
    + inversion 1 as [|? b ? k' Hb Hk']; subst.
      apply bind_Ok. exists b. split; [done |].
      apply bind_Ok. exists k'. split; [by apply IH | done].
Qed.

Lemma mapM_total {A B : Type} (f : A -> Result B) (l : list A) :
  Forall (fun a => ∃ b, f a = Ok b) l → ∃ k, mapM f l = Ok k.
Proof.
  induction 1 as [|a l [b Hb] _ [k Hk]].
  - by exists [].
  - exists (b :: k). apply mapM_Ok. constructor; [done | by apply mapM_Ok].
Qed.

Lemma mapM_id {A : Type} (f : A -> Result A) (l : list A) :
  Forall (fun a => f a = Ok a) l → mapM f l = Ok l.
Proof.
  intros Hl. apply mapM_Ok. induction Hl; constructor; done.
Qed.

Lemma mapM_Raise {A B : Type} (f : A -> Result B) (l : list A) (a : A) (e : PyError) :
  a ∈ l → f a = Raise e → ∃ e', mapM f l = Raise e'.
Proof.
  intros Hin Ha. destruct (mapM f l) as [k|e'] eqn:Hk; [|by eauto].
  apply mapM_Ok in Hk.
  apply list_elem_of_lookup in Hin as [i Hi].
  destruct (Forall2_lookup_l _ _ _ _ _ Hk Hi) as (b & _ & Hb). congruence.
Qed.

(** ** The loops over pages and annotations *)

#[local] Arguments mapM : simpl never.

Lemma each_annot_Ok body page page' :
  each_annot body page = Ok page' →
  Forall2 (fun a b => body a = Ok b) (annots_of page) (annots_of page')
  ∧ page_entries page' = page_entries page
  ∧ (Annots page' = None ↔ Annots page = None).
Proof.
  unfold each_annot, annots_of. destruct page as [[[|a l]|] ents]; simpl.
  - intros [= <-]. simpl. by repeat split.
  - intros (k & Hk%mapM_Ok & [= <-])%bind_Ok. simpl. by repeat split.
  - intros [= <-]. simpl. by repeat split.
Qed.

Lemma each_annot_total body page :
  Forall (fun a => ∃ b, body a = Ok b) (annots_of page) →
  ∃ page', each_annot body page = Ok page'.
Proof.
  unfold each_annot, annots_of. destruct page as [[[|a l]|] ents]; simpl; eauto.
  intros [k Hk]%mapM_total. simpl in Hk. rewrite Hk. simpl. eauto.
Qed.

Lemma each_annot_id body page :
  Forall (fun a => body a = Ok a) (annots_of page) →
  each_annot body page = Ok page.
Proof.
  unfold each_annot, annots_of. destruct page as [[[|a l]|] ents]; simpl; try done.
  intros Hl%mapM_id. simpl in Hl. by rewrite Hl.
Qed.

Lemma each_page_Ok body pdf pdf' :
  each_page body pdf = Ok pdf' ↔
  Forall2 (fun p p' => body p = Ok p') (pages pdf) (pages pdf')
  ∧ AcroForm pdf' = need_appearances (AcroForm pdf).
Proof.
  unfold each_page. split.
  - intros (ps & Hps%mapM_Ok & [= <-])%bind_Ok. done.
  - intros [Hps%mapM_Ok Hform]. rewrite Hps. simpl.
    destruct pdf'; simpl in *. by subst.
Qed.

Lemma each_page_total body pdf :
  Forall (fun p => ∃ p', body p = Ok p') (pages pdf) →
  ∃ pdf', each_page body pdf = Ok pdf'.
Proof.
  intros [ps Hps]%mapM_total. unfold each_page. rewrite Hps. simpl. eauto.
Qed.

(** A stage that updates annotations in place keeps every annotation at its
    place. *)
Lemma each_annot_at body pdf pdf' i j annot :
  each_page (each_annot body) pdf = Ok pdf' →
  annot_at pdf i j = Some annot →
  ∃ annot', body annot = Ok annot' ∧ annot_at pdf' i j = Some annot'.
Proof.
  intros [Hps _]%each_page_Ok. unfold annot_at.
  destruct (pages pdf !! i) as [page|] eqn:Hi; simpl; [|done].
  intros Hj.
  destruct (Forall2_lookup_l _ _ _ _ _ Hps Hi) as (page' & Hi' & Hpage).
  apply each_annot_Ok in Hpage as (Hannots & _).
  destruct (Forall2_lookup_l _ _ _ _ _ Hannots Hj) as (annot' & Hj' & Hannot).
  exists annot'. by rewrite Hi'.
Qed.

Lemma each_annot_at_inv body pdf pdf' i j annot' :
  each_page (each_annot body) pdf = Ok pdf' →
  annot_at pdf' i j = Some annot' →
  ∃ annot, body annot = Ok annot' ∧ annot_at pdf i j = Some annot.
Proof.
  intros [Hps _]%each_page_Ok. unfold annot_at.
  destruct (pages pdf' !! i) as [page'|] eqn:Hi'; simpl; [|done].
  intros Hj'.
  destruct (Forall2_lookup_r _ _ _ _ _ Hps Hi') as (page & Hi & Hpage).
  apply each_annot_Ok in Hpage as (Hannots & _).
  destruct (Forall2_lookup_r _ _ _ _ _ Hannots Hj') as (annot & Hj & Hannot).
  exists annot. by rewrite Hi.
Qed.

Lemma all_annots_at P pdf i j annot :
  all_annots P pdf → annot_at pdf i j = Some annot → P annot.
Proof.
  unfold all_annots, annot_at. intros Hpdf.
  destruct (pages pdf !! i) as [page|] eqn:Hi; simpl; [|done].
  intros Hj. eapply Forall_lookup_1 in Hpdf; [|done].
  eapply Forall_lookup_1 in Hpdf; done.
Qed.

Lemma all_annots_impl (P Q : PdfDict -> Prop) pdf :
  (∀ annot, P annot → Q annot) → all_annots P pdf → all_annots Q pdf.
Proof.
  intros HPQ. unfold all_annots. intros Hpdf.
  eapply Forall_impl; [exact Hpdf|]. intros page Hpage.
  eapply Forall_impl; [exact Hpage|]. done.
Qed.

Lemma all_annots_and (P Q : PdfDict -> Prop) pdf :
  all_annots P pdf → all_annots Q pdf →
  all_annots (fun annot => P annot ∧ Q annot) pdf.
Proof.
  unfold all_annots. rewrite !Forall_forall. intros HP HQ page Hpage.
  specialize (HP page Hpage). specialize (HQ page Hpage).
  rewrite Forall_forall in *. auto.
Qed.

Lemma each_annot_pdf_total body pdf :
  all_annots (fun annot => ∃ annot', body annot = Ok annot') pdf →
  ∃ pdf', each_page (each_annot body) pdf = Ok pdf'.
Proof.
  intros Hpdf. apply each_page_total.
  eapply Forall_impl; [exact Hpdf|]. intros page. apply each_annot_total.
Qed.

(** What holds of the results of the body holds of the annotations of the
    stage's output. *)
Lemma each_annot_all (P Q : PdfDict -> Prop) body pdf pdf' :
  (∀ annot annot', P annot → body annot = Ok annot' → Q annot') →
  each_page (each_annot body) pdf = Ok pdf' →
  all_annots P pdf → all_annots Q pdf'.
Proof.
  intros Hbody [Hps _]%each_page_Ok. unfold all_annots.
  induction Hps as [|page page' ps ps' Hpage _ IH]; [constructor|].
  intros [HP Hrest]%Forall_cons. constructor; [|by apply IH].
  apply each_annot_Ok in Hpage as (Hannots & _).
  clear -Hbody Hannots HP.
  induction Hannots as [|a b l k Hab _ IH]; [constructor|].
  apply Forall_cons in HP as [Ha Hl]. constructor; eauto.
Qed.

(** ** Named widgets *)

Lemma named_widget_test annot key :
  named_widget annot key →
  is_named_widget annot = true ∧ slice_1_m1 (annot !! "/T") = Ok key.
Proof.
  intros (Hsub & raw & HT & Hraw & ->). unfold is_named_widget.
  rewrite HT, bool_decide_eq_true_2 by done. simpl. split; [|done].
  apply negb_true_iff, String.eqb_neq. done.
Qed.

Lemma named_widget_unique annot key key' :
  named_widget annot key → named_widget annot key' → key = key'.
Proof.
  intros (_ & raw & HT & _ & ->) (_ & raw' & HT' & _ & ->). congruence.
Qed.

(** An annotation with a textual [/T] either is a named widget or fails the
    test of the stages. *)
Lemma named_widget_or_not annot :
  text_name annot →
  (∃ key, named_widget annot key) ∨ is_named_widget annot = false.
Proof.
  intros Htext. unfold is_named_widget.
  destruct (decide (annot !! "/Subtype" = Some Widget)) as [Hsub|Hsub].
  - rewrite bool_decide_eq_true_2 by done. simpl.
    destruct (annot !! "/T") as [[raw|n]|] eqn:HT; simpl.
    + destruct (String.eqb_spec raw "") as [->|Hraw]; simpl; [by right|].
      left. exists (str_slice_1_m1 raw). split; [done|]. by exists raw.
    + by destruct (Htext n).
    + by right.
  - rewrite bool_decide_eq_false_2 by done. by right.
Qed.


(** Updating another entry than [/Subtype] and [/T] keeps the name. *)
Lemma named_widget_insert annot key k v :
  k ≠ "/Subtype" → k ≠ "/T" →
  named_widget (<[k := v]> annot) key ↔ named_widget annot key.
Proof.
  intros Hsub HT. unfold named_widget. by rewrite !lookup_insert_ne.
Qed.

Lemma text_name_insert annot k v :
  k ≠ "/T" → text_name (<[k := v]> annot) ↔ text_name annot.
Proof. intros HT. unfold text_name. by rewrite lookup_insert_ne. Qed.

(** ** What each stage does to one annotation *)

Lemma fill_annot_named data annot key :
  named_widget annot key →
  fill_annot data annot =
    Ok (match dict_get data key with
        | Some value => <["/V" := PdfStr (py_str value)]>
                          (<["/AS" := PdfStr (py_str value)]> annot)
        | None => annot
        end).
Proof.
  intros [Htest Hkey]%named_widget_test. unfold fill_annot.
  rewrite Htest, Hkey. simpl. by destruct (dict_get data key).
Qed.

Lemma fill_annot_other data annot :
  is_named_widget annot = false → fill_annot data annot = Ok annot.
Proof. intros Htest. unfold fill_annot. by rewrite Htest. Qed.

Lemma readonly_annot_all annot key :
  named_widget annot key →
  readonly_annot None annot =
    flags ← existing_flags annot; Ok (<["/Ff" := PdfInt (Z.lor flags 1)]> annot).
Proof.
  intros [Htest Hkey]%named_widget_test. unfold readonly_annot.
  by rewrite Htest, Hkey.
Qed.

Lemma readonly_annot_other fields annot :
  is_named_widget annot = false → readonly_annot fields annot = Ok annot.
Proof. intros Htest. unfold readonly_annot. by rewrite Htest. Qed.

Lemma visibility_annot_named entries annot key :
  named_widget annot key →
  visibility_annot (JDict entries) annot =
    Ok (match dict_get entries key with
        | Some shown =>
            if py_truthy shown then Some (<["/F" := PdfInt 0]> annot) else None
        | None => Some annot
        end).
Proof.
  intros [Htest Hkey]%named_widget_test. unfold visibility_annot.
  rewrite Htest, Hkey. simpl.
  destruct (dict_get entries key) as [shown|] eqn:Hget.
  - rewrite bool_decide_eq_true_2 by eauto. simpl.
    by destruct (py_truthy shown).
  - rewrite bool_decide_eq_false_2; [done|]. by intros [? ?].
Qed.

Lemma visibility_annot_other visibility_map annot :
  is_named_widget annot = false →
  visibility_annot visibility_map annot = Ok (Some annot).
Proof. intros Htest. unfold visibility_annot. by rewrite Htest. Qed.

(** Without a mapping ([None]) the membership test on a named widget raises. *)
Lemma visibility_annot_None annot key :
  named_widget annot key → visibility_annot JNull annot = Raise TypeError.
Proof.
  intros [Htest Hkey]%named_widget_test. unfold visibility_annot.
  by rewrite Htest, Hkey.
Qed.

(** ** [set_fields_readonly] with [fields=None] *)

Lemma readonly_annot_total annot :
  text_name annot → (∃ flags, existing_flags annot = Ok flags) →
  ∃ annot', readonly_annot None annot = Ok annot'.
Proof.
  intros [[key Hkey]|Hother]%named_widget_or_not [flags Hflags].
  - rewrite (readonly_annot_all _ _ Hkey), Hflags. simpl. eauto.
  - rewrite readonly_annot_other by done. eauto.
Qed.

Lemma readonly_document_total pdf :
  text_names pdf → int_flags pdf → ∃ pdf', readonly_document None pdf = Ok pdf'.
Proof.
  intros Htext Hflags. apply each_annot_pdf_total.
  eapply all_annots_impl; [|apply (all_annots_and _ _ _ Htext Hflags)].
  intros annot [? ?]. by apply readonly_annot_total.
Qed.

Lemma lor_1_bits (flags : Z) :
  Z.testbit (Z.lor flags 1) 0 = true
  ∧ ∀ i, i ≠ 0%Z → Z.testbit (Z.lor flags 1) i = Z.testbit flags i.
Proof.
  split.
  - rewrite Z.lor_spec. change (Z.testbit 1 0) with true. apply orb_true_r.
  - intros i Hi. rewrite Z.lor_spec.
    destruct (Z.lt_trichotomy i 0) as [Hneg|[->|Hpos]]; [|done|].
    + rewrite !Z.testbit_neg_r by done. done.
    + rewrite (Z.bits_above_log2 1 i); [apply orb_false_r|lia|].
      change (Z.log2 1) with 0%Z. done.
Qed.

(** C3: when [set_fields_readonly] runs with [fields=None] on a document
    (whose names are text and whose flags are integers), it returns, and
    every Widget annotation with a field name, of existing flags [flags]
    (an absent [/Ff] counts as 0), is at the same place with [/Ff] equal to
    [flags | 1] and all its other entries as before: bit 0 is set, every
    other bit of the flags is kept, and flags 4 become 5. *)
Theorem readonly_all_sets_bit0 (pdf : Document) (i j : nat)
    (annot : PdfDict) (key : string) (flags : Z) :
  text_names pdf → int_flags pdf →
  annot_at pdf i j = Some annot →
  named_widget annot key →
  existing_flags annot = Ok flags →
  ∃ pdf' annot',
    readonly_document None pdf = Ok pdf'
    ∧ annot_at pdf' i j = Some annot'
    ∧ annot' !! "/Ff" = Some (PdfInt (Z.lor flags 1))
    ∧ (∀ k, k ≠ "/Ff" → annot' !! k = annot !! k)
    ∧ Z.testbit (Z.lor flags 1) 0 = true
    ∧ (∀ b, b ≠ 0%Z → Z.testbit (Z.lor flags 1) b = Z.testbit flags b)
    ∧ (flags = 4%Z → annot' !! "/Ff" = Some (PdfInt 5)).
Proof.
  intros Htext Hint Hat Hkey Hflags.
  destruct (readonly_document_total pdf Htext Hint) as [pdf' Hpdf'].
  destruct (each_annot_at _ _ _ _ _ _ Hpdf' Hat) as (annot' & Hannot' & Hat').
  rewrite (readonly_annot_all _ _ Hkey), Hflags in Hannot'.
  injection Hannot' as <-.
  exists pdf', (<["/Ff" := PdfInt (Z.lor flags 1)]> annot).
  destruct (lor_1_bits flags) as [Hbit0 Hbits].
  repeat split; try done.
  - apply lookup_insert_eq.
  - intros k Hk. by rewrite lookup_insert_ne.
  - intros ->. by rewrite lookup_insert_eq.
Qed.

(** Evaluation of the hypotheses of the statements on sample documents. *)
Ltac evaluated :=
  lazymatch goal with
  | |- all_annots _ _ => repeat constructor; evaluated
  | |- text_names _ => repeat constructor; evaluated
  | |- int_flags _ => repeat constructor; evaluated
  | |- text_name _ => intros ?; vm_compute; discriminate
  | |- named_widget _ _ =>
      split; [vm_compute; reflexivity
             | eexists; split; [vm_compute; reflexivity
                               | split; [discriminate | vm_compute; reflexivity]]]
  | |- ∃ _, _ => eexists; evaluated
  | |- _ ≠ _ => vm_compute; discriminate
  | |- _ => vm_compute; reflexivity
  end.

Lemma readonly_all_sets_bit0_witness :
  text_names flagged ∧ int_flags flagged
  ∧ annot_at flagged 0 0 = Some (widget "name" {["/Ff" := PdfStr "4"]})
  ∧ ∃ pdf' annot',
      readonly_document None flagged = Ok pdf'
      ∧ annot_at pdf' 0 0 = Some annot'
      ∧ annot' !! "/Ff" = Some (PdfInt 5).
Proof.
  assert (Htext : text_names flagged) by evaluated.
  assert (Hint : int_flags flagged) by evaluated.
  assert (Hat : annot_at flagged 0 0 = Some (widget "name" {["/Ff" := PdfStr "4"]}))
    by evaluated.
  assert (Hkey : named_widget (widget "name" {["/Ff" := PdfStr "4"]}) "name")
    by evaluated.
  assert (Hflags : existing_flags (widget "name" {["/Ff" := PdfStr "4"]}) = Ok 4%Z)
    by evaluated.
  repeat split; try assumption.
  destruct (readonly_all_sets_bit0 flagged 0 0 _ "name" 4 Htext Hint Hat Hkey Hflags)
    as (pdf' & annot' & Hpdf' & Hat' & _ & _ & _ & _ & Hfive).
  exists pdf', annot'. auto.
Defined.

(** ** [fill_pdf] *)

Lemma fill_annot_total data annot :
  text_name annot → ∃ annot', fill_annot data annot = Ok annot'.
Proof.
  intros [[key Hkey]|Hother]%named_widget_or_not.
  - rewrite (fill_annot_named _ _ _ Hkey). eauto.
  - rewrite fill_annot_other by done. eauto.
Qed.

Lemma fill_document_total data pdf :
  text_names pdf → ∃ pdf', fill_document data pdf = Ok pdf'.
Proof.
  intros Htext. apply each_annot_pdf_total.
  eapply all_annots_impl; [|exact Htext]. intros annot. apply fill_annot_total.
Qed.

(** C5, as stated, fails on a widget whose name is empty: [/T ()] passes the
    test of line 50 (the token [()] is not the empty [str]), its key is the
    empty text, and data with that key fill it, although it is none of the
    widgets with a non-empty field name among the keys of the data. *)
Lemma fill_touches_widget_with_empty_name :
  let annot : PdfDict := <["/Subtype" := Widget]> {["/T" := PdfStr "()"]} in
  let data := [("", JStr "x")] in
  ¬ (∃ key, key ≠ "" ∧ named_widget annot key ∧ is_Some (dict_get data key))
  ∧ fill_annot data annot ≠ Ok annot
  ∧ fill_annot data annot
    = Ok (<["/V" := PdfStr "x"]> (<["/AS" := PdfStr "x"]> annot)).
Proof.
  intros annot data. split; [|split].
  - intros (key & Hne & Hkey & _).
    assert (Hempty : named_widget annot "") by evaluated.
    by rewrite (named_widget_unique _ _ _ Hkey Hempty) in Hne.
  - vm_compute. discriminate.
  - vm_compute. reflexivity.
Qed.

(** C5, amended: [fill_pdf] returns on every document (whose names are text),
    whatever the names of the template and the keys of the data.  Every
    Widget annotation with a [/T] entry whose field name, possibly empty, is
    a key of the data is at the same place with [/V] and [/AS] both equal to
    [str] of the supplied value, and its other entries as before; every other
    annotation is at the same place as it was. *)
Theorem fill_sets_value_of_named_widgets (data : list (string * JValue))
    (pdf : Document) :
  text_names pdf →
  ∃ pdf',
    fill_document data pdf = Ok pdf'
    ∧ ∀ i j annot,
        annot_at pdf i j = Some annot →
        (∀ key value,
            named_widget annot key → dict_get data key = Some value →
            ∃ annot',
              annot_at pdf' i j = Some annot'
              ∧ annot' !! "/V" = Some (PdfStr (py_str value))
              ∧ annot' !! "/AS" = Some (PdfStr (py_str value))
              ∧ ∀ k, k ≠ "/V" → k ≠ "/AS" → annot' !! k = annot !! k)
        ∧ ((¬ ∃ key, named_widget annot key ∧ is_Some (dict_get data key)) →
           annot_at pdf' i j = Some annot).
Proof.
  intros Htext. destruct (fill_document_total data pdf Htext) as [pdf' Hpdf'].
  exists pdf'. split; [done|]. intros i j annot Hat.
  destruct (each_annot_at _ _ _ _ _ _ Hpdf' Hat) as (annot' & Hannot' & Hat').
  split.
  - intros key value Hkey Hvalue.
    rewrite (fill_annot_named _ _ _ Hkey), Hvalue in Hannot'.
    injection Hannot' as <-. eexists. split; [done|].
    split; [apply lookup_insert_eq|]. split.
    + rewrite lookup_insert_ne by done. apply lookup_insert_eq.
    + intros k HV HAS. by rewrite !lookup_insert_ne.
  - intros Hother.
    destruct (named_widget_or_not annot) as [[key Hkey]|Hnot].
    + by apply (all_annots_at _ _ _ _ _ Htext Hat).
    + rewrite (fill_annot_named _ _ _ Hkey) in Hannot'.
      destruct (dict_get data key) as [value|] eqn:Hvalue.
      * destruct Hother. exists key. rewrite Hvalue. eauto.
      * by injection Hannot' as <-.
    + rewrite fill_annot_other in Hannot' by done. by injection Hannot' as <-.
Qed.

Lemma fill_sets_value_of_named_widgets_witness :
  text_names two_widgets
  ∧ ∃ pdf' annot',
      fill_document [("name", JStr "Alice"); ("absent", JInt 1)] two_widgets = Ok pdf'
      ∧ annot_at pdf' 0 0 = Some annot'
      ∧ annot' !! "/V" = Some (PdfStr "Alice")
      ∧ annot_at pdf' 0 1 = annot_at two_widgets 0 1.
Proof.
  assert (Htext : text_names two_widgets) by evaluated.
  split; [done|].
  destruct (fill_sets_value_of_named_widgets
              [("name", JStr "Alice"); ("absent", JInt 1)] two_widgets Htext)
    as (pdf' & Hpdf' & Hat).
  destruct (Hat 0%nat 0%nat _ eq_refl) as [Hname _].
  destruct (Hname "name" (JStr "Alice")) as (annot' & Hat' & HV & _);
    [evaluated | evaluated |].
  destruct (Hat 0%nat 1%nat _ eq_refl) as [_ Hsignature].
  exists pdf', annot'. repeat split; try done.
  apply Hsignature. intros (key & Hkey & Hsome).
  assert (Hsig : named_widget
            (widget "signature" (<["/Ff" := PdfStr "0"]> {["/F" := PdfStr "0"]}))
            "signature") by evaluated.
  rewrite (named_widget_unique _ _ _ Hkey Hsig) in Hsome.
  vm_compute in Hsome. by destruct Hsome.
Defined.

Lemma each_page_id body pdf :
  Forall (fun page => body page = Ok page) (pages pdf) →
  each_page body pdf
  = Ok {| pages := pages pdf; AcroForm := need_appearances (AcroForm pdf) |}.
Proof. intros Hid. apply each_page_Ok. split; [|done]. by apply Forall_Forall2_diag. Qed.

(** The form dictionary after a stage: present exactly when it was, with the
    entries it had, [/NeedAppearances] apart. *)
Lemma need_appearances_others acroform :
  (need_appearances acroform = None ↔ acroform = None)
  ∧ ∀ form form' k,
      acroform = Some form → need_appearances acroform = Some form' →
      k ≠ "/NeedAppearances" → form' !! k = form !! k.
Proof.
  unfold need_appearances. split.
  - destruct acroform as [form|]; [|done]. by case_bool_decide.
  - intros form form' k -> Hform' Hk. case_bool_decide.
    + by injection Hform' as <-.
    + injection Hform' as <-. by rewrite lookup_insert_ne.
Qed.

(** C9: filling with no data returns a document with the very pages of the
    input (same pages, same annotation arrays, same annotations) and the
    form dictionary of the input, where only [/NeedAppearances] can differ. *)
Theorem fill_without_data_keeps_pages (pdf : Document) :
  text_names pdf →
  ∃ pdf',
    fill_document [] pdf = Ok pdf'
    ∧ pages pdf' = pages pdf
    ∧ AcroForm pdf' = need_appearances (AcroForm pdf)
    ∧ (AcroForm pdf' = None ↔ AcroForm pdf = None)
    ∧ ∀ form form' k,
        AcroForm pdf = Some form → AcroForm pdf' = Some form' →
        k ≠ "/NeedAppearances" → form' !! k = form !! k.
Proof.
  intros Htext. eexists. split.
  - apply each_page_id. eapply Forall_impl; [exact Htext|].
    intros page Hpage. apply each_annot_id.
    eapply Forall_impl; [exact Hpage|]. intros annot Hannot. simpl in Hannot.
    destruct (named_widget_or_not annot Hannot) as [[key Hkey]|Hnot].
    + by rewrite (fill_annot_named _ _ _ Hkey).
    + by apply fill_annot_other.
  - simpl. split; [done|]. split; [done|].
    apply need_appearances_others.
Qed.

Lemma fill_without_data_keeps_pages_witness :
  text_names flagged
  ∧ ∃ pdf', fill_document [] flagged = Ok pdf' ∧ pages pdf' = pages flagged.
Proof.
  assert (Htext : text_names flagged) by evaluated.
  split; [done|].
  destruct (fill_without_data_keeps_pages flagged Htext) as (pdf' & Hpdf' & Hpages & _).
  by exists pdf'.
Defined.

(** ** [set_button_visibility] *)

Lemma new_annots_Ok visibility_map annots kept :
  new_annots visibility_map annots = Ok kept ↔
  ∃ ks, Forall2 (fun a k => visibility_annot visibility_map a = Ok k) annots ks
        ∧ kept = omap id ks.
Proof.
  revert kept. induction annots as [|a l IH]; intros kept; simpl.
  - split.
    + intros [= <-]. exists []. split; [constructor | done].
    + intros (ks & Hks & ->). by inversion Hks.
  - split.
    + intros (k & Hk & (rest & Hrest & [= <-])%bind_Ok)%bind_Ok.
      apply IH in Hrest as (ks & Hks & ->).
      exists (k :: ks). split; [by constructor|]. by destruct k.
    + intros (ks & Hks & ->). inversion Hks as [|? k ? ks' Hk Hks']; subst.
      apply bind_Ok. exists k. split; [done|].
      apply bind_Ok. exists (omap id ks'). split; [apply IH; eauto|].
      by destruct k.
Qed.

(** The annotations of the new list are those the loop kept, and only those. *)
Lemma new_annots_elem visibility_map annots kept annot' :
  new_annots visibility_map annots = Ok kept →
  annot' ∈ kept ↔
  ∃ annot, annot ∈ annots ∧ visibility_annot visibility_map annot = Ok (Some annot').
Proof.
  intros (ks & Hks & ->)%new_annots_Ok. rewrite list_elem_of_omap. split.
  - intros (k & Hin & Hk). destruct k as [a|]; simplify_eq/=.
    apply list_elem_of_lookup in Hin as [i Hi].
    destruct (Forall2_lookup_r _ _ _ _ _ Hks Hi) as (annot & Hannot & Hvis).
    exists annot. split; [|done]. apply list_elem_of_lookup. eauto.
  - intros (annot & Hin & Hvis).
    apply list_elem_of_lookup in Hin as [i Hi].
    destruct (Forall2_lookup_l _ _ _ _ _ Hks Hi) as (k & Hk & Hvis').
    exists k. split; [apply list_elem_of_lookup; eauto|].
    rewrite Hvis in Hvis'. by injection Hvis' as <-.
Qed.

Lemma new_annots_total visibility_map annots :
  Forall (fun a => ∃ k, visibility_annot visibility_map a = Ok k) annots →
  ∃ kept, new_annots visibility_map annots = Ok kept.
Proof.
  induction 1 as [|a l [k Hk] _ [kept Hkept]]; simpl; [by eauto|].
  rewrite Hk, Hkept. simpl. eauto.
Qed.

Lemma new_annots_Raise visibility_map annots annot e :
  annot ∈ annots → visibility_annot visibility_map annot = Raise e →
  ∃ e', new_annots visibility_map annots = Raise e'.
Proof.
  intros Hin Hannot.
  destruct (new_annots visibility_map annots) as [kept|e'] eqn:Hkept; [|by eauto].
  apply new_annots_Ok in Hkept as (ks & Hks & _).
  apply list_elem_of_lookup in Hin as [i Hi].
  destruct (Forall2_lookup_l _ _ _ _ _ Hks Hi) as (k & _ & Hk). congruence.
Qed.

(** The page loop body on a page that lists annotations, by what
    [new_annots] builds. *)
Lemma visibility_page_listing visibility_map a l ents :
  visibility_page visibility_map {| Annots := Some (a :: l); page_entries := ents |}
  = match new_annots visibility_map (a :: l) with
    | Ok [] => Raise TypeError
    | Ok (a' :: l') => Ok {| Annots := Some (a' :: l'); page_entries := ents |}
    | Raise e => Raise e
    end.
Proof.
  unfold visibility_page.
  change (Annots {| Annots := Some (a :: l); page_entries := ents |})
    with (Some (a :: l)).
  cbv beta iota.
  by destruct (new_annots visibility_map (a :: l)) as [[|a' l']|e].
Qed.

(** A page that returns from the loop body lists what [new_annots] built; a
    page that had annotations never ends with an empty array. *)
Lemma visibility_page_Ok visibility_map page page' :
  visibility_page visibility_map page = Ok page' →
  new_annots visibility_map (annots_of page) = Ok (annots_of page')
  ∧ page_entries page' = page_entries page
  ∧ (annots_of page ≠ [] → Annots page' ≠ Some []).
Proof.
  destruct page as [[[|a l]|] ents].
  - intros [= <-]. by repeat split.
  - rewrite visibility_page_listing. unfold annots_of.
    change (Annots {| Annots := Some (a :: l); page_entries := ents |})
      with (Some (a :: l)).
    change (default [] (Some (a :: l))) with (a :: l).
    destruct (new_annots visibility_map (a :: l)) as [[|a' l']|e]; try done.
    intros [= <-]. by repeat split.
  - intros [= <-]. by repeat split.
Qed.

(** The loop body returns on a page when it returns on each of its
    annotations and keeps one of them, or there is none. *)
Lemma visibility_page_total visibility_map page :
  Forall (fun a => ∃ k, visibility_annot visibility_map a = Ok k) (annots_of page) →
  (annots_of page = []
   ∨ ∃ annot annot', annot ∈ annots_of page
       ∧ visibility_annot visibility_map annot = Ok (Some annot')) →
  ∃ page', visibility_page visibility_map page = Ok page'.
Proof.
  destruct page as [[[|a l]|] ents]; [by eexists| |by eexists].
  unfold annots_of.
  change (Annots {| Annots := Some (a :: l); page_entries := ents |})
    with (Some (a :: l)).
  change (default [] (Some (a :: l))) with (a :: l).
  intros [kept Hkept]%new_annots_total [Hnil|(annot & annot' & Hin & Hannot)];
    [done|].
  rewrite visibility_page_listing, Hkept.
  destruct kept as [|a' l']; [|by eexists].
  assert (Hkept' : annot' ∈ []).
  { apply (new_annots_elem _ _ _ _ Hkept). eauto. }
  by apply elem_of_nil in Hkept'.
Qed.

Lemma visibility_annot_total entries annot :
  text_name annot → ∃ k, visibility_annot (JDict entries) annot = Ok k.
Proof.
  intros [[key Hkey]|Hother]%named_widget_or_not.
  - rewrite (visibility_annot_named _ _ _ Hkey). eauto.
  - rewrite visibility_annot_other by done. eauto.
Qed.

(** What the map does not hide, the loop keeps. *)
Lemma visibility_annot_not_hidden entries annot :
  text_name annot → ¬ hidden_by entries annot →
  ∃ annot', visibility_annot (JDict entries) annot = Ok (Some annot').
Proof.
  intros [[key Hkey]|Hother]%named_widget_or_not Hshown.
  - rewrite (visibility_annot_named _ _ _ Hkey).
    destruct (dict_get entries key) as [shown|] eqn:Hget; [|by eauto].
    destruct (py_truthy shown) eqn:Htrue; [by eauto|].
    destruct Hshown. by exists key, shown.
  - rewrite visibility_annot_other by done. eauto.
Qed.

(** With a dictionary the stage returns as soon as no page loses all its
    annotations. *)
Lemma visibility_document_total entries pdf :
  text_names pdf → no_page_emptied entries pdf →
  ∃ pdf', visibility_document (JDict entries) pdf = Ok pdf'.
Proof.
  intros Htext Hkept. apply each_page_total. apply Forall_forall.
  intros page [i Hi]%list_elem_of_lookup.
  pose proof (Forall_lookup_1 _ _ _ _ Htext Hi) as Hpage.
  pose proof (Forall_lookup_1 _ _ _ _ Hkept Hi) as Hsome. simpl in Hpage, Hsome.
  apply visibility_page_total.
  - eapply Forall_impl; [exact Hpage|]. intros annot. apply visibility_annot_total.
  - destruct Hsome as [Hnil|(annot & Hin & Hshown)]; [by left|]. right.
    destruct (visibility_annot_not_hidden entries annot) as [annot' Hannot']; [|done|].
    + rewrite Forall_forall in Hpage. by apply Hpage.
    + by exists annot, annot'.
Qed.




(** A page whose [/Annots] is already an empty array is skipped at line 73:
    nothing is rebuilt and the page keeps its empty array. *)
Lemma visibility_keeps_empty_array :
  let page := {| Annots := Some []; page_entries := {["/Type" := PdfStr "/Page"]} |} in
  let visibility_map := JDict [("signature", JBool false)] in
  new_annots visibility_map (annots_of page) = Ok []
  ∧ visibility_page visibility_map page = Ok page
  ∧ Annots page = Some []
  ∧ Annots page ≠ None.
Proof. repeat split. discriminate. Qed.

(** ** The form dictionary *)

Lemma need_appearances_set form :
  form ≠ ∅ →
  need_appearances (Some form) = Some (<["/NeedAppearances" := PdfStr "true"]> form).
Proof. intros Hform. unfold need_appearances. by rewrite bool_decide_eq_false_2. Qed.

(** C7, as stated, fails on a document whose form dictionary has no entry:
    an empty dictionary is false at [if pdf.Root.AcroForm:], so each of the
    three stages returns the document with its form dictionary still
    empty, without [/NeedAppearances]. *)
Lemma empty_form_gets_no_flag :
  AcroForm empty_form = Some ∅
  ∧ match fill_document [("name", JStr "Alice")] empty_form with
    | Ok pdf' => AcroForm pdf' = Some ∅
    | Raise _ => False
    end
  ∧ match readonly_document None empty_form with
    | Ok pdf' => AcroForm pdf' = Some ∅
    | Raise _ => False
    end
  ∧ match visibility_document (JDict [("signature", JBool false)]) empty_form with
    | Ok pdf' => AcroForm pdf' = Some ∅
    | Raise _ => False
    end
  ∧ (∅ : PdfDict) !! "/NeedAppearances" = None.
Proof. repeat split; vm_compute; reflexivity. Qed.

(** C7, amended: when the document has a form dictionary with at least one
    entry, each of the three stages, on its own, returns a document whose
    form dictionary is the one of its input with [/NeedAppearances] set to
    [true]; so do the three in a row, each on the output of the one before.
    The stages do return: [fill_pdf] when names are text,
    [set_fields_readonly] when moreover flags are integers,
    [set_button_visibility] with a dictionary when names are text and no
    page loses all its annotations. *)
Theorem stages_set_need_appearances (pdf : Document) (form : PdfDict) :
  AcroForm pdf = Some form → form ≠ ∅ →
  let flag_set (pdf' : Document) :=
    ∃ form', AcroForm pdf' = Some form'
             ∧ form' = <["/NeedAppearances" := PdfStr "true"]> form
             ∧ form' !! "/NeedAppearances" = Some (PdfStr "true") in
  (∀ data pdf', fill_document data pdf = Ok pdf' → flag_set pdf')
  ∧ (∀ fields pdf', readonly_document fields pdf = Ok pdf' → flag_set pdf')
  ∧ (∀ visibility_map pdf',
       visibility_document visibility_map pdf = Ok pdf' → flag_set pdf')
  ∧ (∀ data fields visibility_map filled locked visible,
       fill_document data pdf = Ok filled →
       readonly_document fields filled = Ok locked →
       visibility_document visibility_map locked = Ok visible →
       flag_set filled ∧ flag_set locked ∧ flag_set visible)
  ∧ (text_names pdf → ∀ data, ∃ pdf', fill_document data pdf = Ok pdf')
  ∧ (text_names pdf → int_flags pdf → ∃ pdf', readonly_document None pdf = Ok pdf')
  ∧ (text_names pdf →
     ∀ entries, no_page_emptied entries pdf →
                ∃ pdf', visibility_document (JDict entries) pdf = Ok pdf').
Proof.
  intros Hform Hnonempty flag_set.
  assert (Hstage : ∀ body pdf0 form0 pdf',
            AcroForm pdf0 = Some form0 → form0 ≠ ∅ →
            each_page body pdf0 = Ok pdf' →
            AcroForm pdf' = Some (<["/NeedAppearances" := PdfStr "true"]> form0)).
  { intros body pdf0 form0 pdf' Hform0 Hne [_ ->]%each_page_Ok.
    rewrite Hform0. by apply need_appearances_set. }
  assert (Hflag : ∀ body pdf', each_page body pdf = Ok pdf' → flag_set pdf').
  { intros body pdf' Hpdf'. eexists. split; [by eapply Hstage|].
    split; [done|]. apply lookup_insert_eq. }
  split; [intros data; apply Hflag|].
  split; [intros fields; apply Hflag|].
  split; [intros visibility_map; apply Hflag|].
  split.
  - intros data fields visibility_map filled locked visible Hfilled Hlocked Hvisible.
    assert (Hagain : <["/NeedAppearances" := PdfStr "true"]>
                       (<["/NeedAppearances" := PdfStr "true"]> form)
                     = <["/NeedAppearances" := PdfStr "true"]> form)
      by apply insert_insert_eq.
    assert (Hne : <["/NeedAppearances" := PdfStr "true"]> form ≠ ∅)
      by apply insert_non_empty.
    pose proof (Hstage _ _ _ _ Hform Hnonempty Hfilled) as H1.
    pose proof (Hstage _ _ _ _ H1 Hne Hlocked) as H2. rewrite Hagain in H2.
    pose proof (Hstage _ _ _ _ H2 Hne Hvisible) as H3. rewrite Hagain in H3.
    repeat split; (eexists; split; [eassumption|]; split; [done|];
                   apply lookup_insert_eq).
  - split; [intros Htext data; by apply fill_document_total|].
    split; [apply readonly_document_total|].
    intros Htext entries Hkept. by apply visibility_document_total.
Qed.

Lemma stages_set_need_appearances_witness :
  AcroForm two_widgets = Some {["/DA" := PdfStr "(/Helv 0 Tf 0 g)"]}
  ∧ ({["/DA" := PdfStr "(/Helv 0 Tf 0 g)"]} : PdfDict) ≠ ∅
  ∧ ∃ filled form',
      fill_document [("name", JStr "Alice")] two_widgets = Ok filled
      ∧ AcroForm filled = Some form'
      ∧ form' !! "/NeedAppearances" = Some (PdfStr "true").
Proof.
  assert (Hform : AcroForm two_widgets = Some {["/DA" := PdfStr "(/Helv 0 Tf 0 g)"]})
    by reflexivity.
  assert (Hne : ({["/DA" := PdfStr "(/Helv 0 Tf 0 g)"]} : PdfDict) ≠ ∅).
  { intros Heq. apply (f_equal (fun m : PdfDict => m !! "/DA")) in Heq.
    vm_compute in Heq. discriminate. }
  split; [exact Hform|]. split; [exact Hne|].
  destruct (stages_set_need_appearances two_widgets _ Hform Hne)
    as (Hfill & _ & _ & _ & Hreturns & _).
  destruct (Hreturns ltac:(evaluated) [("name", JStr "Alice")]) as [filled Hfilled].
  destruct (Hfill _ _ Hfilled) as (form' & Hform' & _ & Hflag).
  by exists filled, form'.
Defined.

(** ** The stages one after the other *)

Lemma annot_at_elem pdf i j annot :
  annot_at pdf i j = Some annot →
  ∃ page, pages pdf !! i = Some page ∧ annot ∈ annots_of page.
Proof.
  unfold annot_at. destruct (pages pdf !! i) as [page|]; simpl; [|done].
  intros Hj. exists page. split; [done|]. apply list_elem_of_lookup. eauto.
Qed.

Lemma fill_annot_result data annot annot' :
  fill_annot data annot = Ok annot' →
  annot' = annot
  ∨ ∃ text, annot' = <["/V" := PdfStr text]> (<["/AS" := PdfStr text]> annot).
Proof.
  unfold fill_annot. destruct (is_named_widget annot).
  - intros (key & _ & Hresult)%bind_Ok.
    destruct (dict_get data key); injection Hresult as <-; eauto.
  - intros [= <-]. by left.
Qed.

Lemma readonly_annot_result fields annot annot' :
  readonly_annot fields annot = Ok annot' →
  annot' = annot ∨ ∃ flags, annot' = <["/Ff" := PdfInt flags]> annot.
Proof.
  unfold readonly_annot. destruct (is_named_widget annot).
  - intros (key & _ & Hresult)%bind_Ok.
    destruct (match fields with
              | None => true
              | Some names => bool_decide (key ∈ names)
              end).
    + apply bind_Ok in Hresult as (flags & _ & Hresult).
      injection Hresult as <-. eauto.
    + injection Hresult as <-. by left.
  - intros [= <-]. by left.
Qed.

Lemma fill_document_text_names data pdf pdf' :
  fill_document data pdf = Ok pdf' → text_names pdf → text_names pdf'.
Proof.
  apply each_annot_all. intros annot annot' Htext [->|[text ->]]%fill_annot_result;
    [done|]. by rewrite !text_name_insert.
Qed.

Lemma readonly_document_text_names fields pdf pdf' :
  readonly_document fields pdf = Ok pdf' → text_names pdf → text_names pdf'.
Proof.
  apply each_annot_all. intros annot annot' Htext [->|[flags ->]]%readonly_annot_result;
    [done|]. by rewrite text_name_insert.
Qed.

Lemma existing_flags_insert_others annot k v :
  k ≠ "/Ff" → existing_flags (<[k := v]> annot) = existing_flags annot.
Proof. intros Hk. unfold existing_flags. by rewrite lookup_insert_ne. Qed.

Lemma fill_document_int_flags data pdf pdf' :
  fill_document data pdf = Ok pdf' → int_flags pdf → int_flags pdf'.
Proof.
  apply each_annot_all. intros annot annot' Hint [->|[text ->]]%fill_annot_result;
    [done|]. by rewrite !existing_flags_insert_others.
Qed.

(** A widget mapped to a true value is in the new list of its page with
    [/F] set to 0. *)
Lemma visibility_page_shown entries page page' annot key shown :
  visibility_page (JDict entries) page = Ok page' →
  annot ∈ annots_of page → named_widget annot key →
  dict_get entries key = Some shown → py_truthy shown = true →
  <["/F" := PdfInt 0]> annot ∈ annots_of page'.
Proof.
  intros (Hnew & _)%visibility_page_Ok Hin Hkey Hshown Htrue.
  apply (new_annots_elem _ _ _ _ Hnew). exists annot. split; [done|].
  by rewrite (visibility_annot_named _ _ _ Hkey), Hshown, Htrue.
Qed.

(** C1, as stated, fails: [set_fields_readonly] sets bit 0 of [/Ff] (the
    field flags) and [set_button_visibility] sets [/F] (the annotation
    flags) to 0, so after both the widget [name], shown, still has its
    read-only flags 1. *)
Lemma shown_field_stays_readonly :
  match readonly_document None two_widgets with
  | Ok locked =>
      match visibility_document (JDict [("name", JBool true)]) locked with
      | Ok visible =>
          ∃ annot', annot_at visible 0 0 = Some annot'
            ∧ named_widget annot' "name"
            ∧ annot' !! "/F" = Some (PdfInt 0)
            ∧ annot' !! "/Ff" = Some (PdfInt 1)
            ∧ existing_flags annot' ≠ Ok 0%Z
            ∧ Z.testbit 1 0 = true
      | Raise _ => False
      end
  | Raise _ => False
  end.
Proof.
  destruct (readonly_document None two_widgets) as [locked|e] eqn:Hlocked;
    vm_compute in Hlocked; [injection Hlocked as <-|discriminate].
  match goal with
  | |- match ?stage with _ => _ end =>
      destruct stage as [visible|e] eqn:Hvisible;
      vm_compute in Hvisible; [injection Hvisible as <-|discriminate]
  end.
  eexists. split; [vm_compute; reflexivity|].
  split; [evaluated|]. split; [evaluated|]. split; [evaluated|].
  split; [evaluated | reflexivity].
Qed.

(** Locking hides nothing and uncovers nothing: the pages that keep an
    annotation under a map still do after [set_fields_readonly]. *)
Lemma readonly_document_no_page_emptied fields entries pdf pdf' :
  readonly_document fields pdf = Ok pdf' →
  no_page_emptied entries pdf → no_page_emptied entries pdf'.
Proof.
  intros [Hpages _]%each_page_Ok Hkept. apply Forall_forall.
  intros page' [i Hi']%list_elem_of_lookup.
  destruct (Forall2_lookup_r _ _ _ _ _ Hpages Hi') as (page & Hi & Hpage).
  apply each_annot_Ok in Hpage as (Hannots & _).
  pose proof (Forall_lookup_1 _ _ _ _ Hkept Hi) as Hsome. simpl in Hsome.
  destruct Hsome as [Hnil|(annot & [j Hj]%list_elem_of_lookup & Hshown)].
  - left. rewrite Hnil in Hannots. by inversion Hannots.
  - right. destruct (Forall2_lookup_l _ _ _ _ _ Hannots Hj) as (annot' & Hj' & Hannot').
    exists annot'. split; [by eapply list_elem_of_lookup_2|].
    intros (key & shown & Hkey & Hget & Hfalse). apply Hshown.
    exists key, shown. split; [|done].
    apply readonly_annot_result in Hannot' as [->|[flags ->]]; [done|].
    by apply named_widget_insert in Hkey.
Qed.

(** C1, amended: [set_fields_readonly] on all fields returns, and whenever
    [set_button_visibility] with the field name mapped to a true value then
    returns, the widget is listed on its page with its annotation flags [/F]
    equal to 0, while its field flags [/Ff] are the former flags with bit 0
    set: the shown field is still read-only.  The page loop of
    [set_button_visibility] does return on the page of the widget, and the
    stage on the document when no page loses all its annotations. *)
Theorem show_keeps_readonly (pdf : Document) (i j : nat) (annot : PdfDict)
    (key : string) (flags : Z) (entries : list (string * JValue)) (shown : JValue) :
  text_names pdf → int_flags pdf →
  annot_at pdf i j = Some annot →
  named_widget annot key →
  existing_flags annot = Ok flags →
  dict_get entries key = Some shown → py_truthy shown = true →
  ∃ locked page1,
    readonly_document None pdf = Ok locked
    ∧ pages locked !! i = Some page1
    ∧ (∃ page', visibility_page (JDict entries) page1 = Ok page')
    ∧ (no_page_emptied entries pdf →
       ∃ visible, visibility_document (JDict entries) locked = Ok visible)
    ∧ ∀ visible,
        visibility_document (JDict entries) locked = Ok visible →
        ∃ page' annot',
          pages visible !! i = Some page'
          ∧ annot' ∈ annots_of page'
          ∧ annot' = <["/F" := PdfInt 0]> (<["/Ff" := PdfInt (Z.lor flags 1)]> annot)
          ∧ annot' !! "/F" = Some (PdfInt 0)
          ∧ annot' !! "/Ff" = Some (PdfInt (Z.lor flags 1))
          ∧ existing_flags annot' = Ok (Z.lor flags 1)
          ∧ Z.testbit (Z.lor flags 1) 0 = true.
Proof.
  intros Htext Hint Hat Hkey Hflags Hshown Htrue.
  destruct (readonly_document_total pdf Htext Hint) as [locked Hlocked].
  pose proof (readonly_document_text_names _ _ _ Hlocked Htext) as Htext'.
  destruct (each_annot_at _ _ _ _ _ _ Hlocked Hat) as (annot1 & Hannot1 & Hat1).
  rewrite (readonly_annot_all _ _ Hkey), Hflags in Hannot1.
  injection Hannot1 as <-.
  apply annot_at_elem in Hat1 as (page1 & Hi1 & Hin1).
  assert (Hkey1 : named_widget (<["/Ff" := PdfInt (Z.lor flags 1)]> annot) key)
    by (by apply named_widget_insert).
  exists locked, page1.
  split; [done|]. split; [done|]. split; [|split].
  - apply visibility_page_total.
    + pose proof (Forall_lookup_1 _ _ _ _ Htext' Hi1) as Hpage1. simpl in Hpage1.
      eapply Forall_impl; [exact Hpage1|]. intros a. apply visibility_annot_total.
    + right. eexists _, _. split; [exact Hin1|].
      by rewrite (visibility_annot_named _ _ _ Hkey1), Hshown, Htrue.
  - intros Hkept. apply visibility_document_total; [done|].
    by eapply readonly_document_no_page_emptied.
  - intros visible [Hpages _]%each_page_Ok.
    destruct (Forall2_lookup_l _ _ _ _ _ Hpages Hi1) as (page' & Hi' & Hpage').
    exists page', (<["/F" := PdfInt 0]> (<["/Ff" := PdfInt (Z.lor flags 1)]> annot)).
    split; [done|]. split; [by eapply visibility_page_shown|].
    split; [done|]. split; [apply lookup_insert_eq|].
    assert (HFf : (<["/F" := PdfInt 0]> (<["/Ff" := PdfInt (Z.lor flags 1)]> annot))
                    !! "/Ff" = Some (PdfInt (Z.lor flags 1))).
    { rewrite lookup_insert_ne by done. apply lookup_insert_eq. }
    split; [done|]. split; [|apply lor_1_bits].
    unfold existing_flags. by rewrite HFf.
Qed.

Lemma show_keeps_readonly_witness :
  text_names flagged ∧ int_flags flagged
  ∧ no_page_emptied [("name", JBool true)] flagged
  ∧ ∃ locked visible page' annot',
      readonly_document None flagged = Ok locked
      ∧ visibility_document (JDict [("name", JBool true)]) locked = Ok visible
      ∧ pages visible !! 0%nat = Some page'
      ∧ annot' ∈ annots_of page'
      ∧ annot' !! "/F" = Some (PdfInt 0)
      ∧ annot' !! "/Ff" = Some (PdfInt 5).
Proof.
  assert (Htext : text_names flagged) by evaluated.
  assert (Hint : int_flags flagged) by evaluated.
  assert (Hkept : no_page_emptied [("name", JBool true)] flagged).
  { constructor; [|constructor; [by left|constructor]].
    right. exists link. split; [right; by left|].
    intros (key & shown & (_ & raw & Hraw & _) & _). vm_compute in Hraw. discriminate. }
  split; [exact Htext|]. split; [exact Hint|]. split; [exact Hkept|].
  destruct (show_keeps_readonly flagged 0 0 (widget "name" {["/Ff" := PdfStr "4"]})
              "name" 4 [("name", JBool true)] (JBool true) Htext Hint)
    as (locked & page1 & Hlocked & _ & _ & Hreturns & Hafter); [evaluated..|].
  destruct (Hreturns Hkept) as [visible Hvisible].
  destruct (Hafter visible Hvisible)
    as (page' & annot' & Hpage' & Hin & _ & HF & HFf & _).
  by exists locked, visible, page', annot'.
Defined.

(** ** The stages on files *)

(** Each of the three functions reads its input file, runs its loops on the
    document and writes the result to its output file; when the loops
    raise, nothing is written. *)
Lemma stage_on_files (stage : Document -> Result Document) (file_in file_out : string)
    (w : World) :
  (pdf ← PdfReader file_in; pdf' ← lift (stage pdf); PdfWriter_write file_out pdf') w
  = match tmp w !! file_in with
    | None => (w, Raise PdfParseError)
    | Some pdf =>
        match stage pdf with
        | Ok pdf' =>
            ({| tmp := <[file_out := pdf']> (tmp w); s3_objects := s3_objects w |}, Ok tt)
        | Raise e => (w, Raise e)
        end
    end.
Proof.
  unfold mbind, IO_bind, PdfReader, lift, PdfWriter_write.
  destruct (tmp w !! file_in) as [pdf|]; [|done]. by destruct (stage pdf).
Qed.

Lemma fill_pdf_on_files input_pdf_path output_pdf_path data w pdf :
  tmp w !! input_pdf_path = Some pdf →
  fill_pdf input_pdf_path output_pdf_path data w
  = match fill_document data pdf with
    | Ok pdf' =>
        ({| tmp := <[output_pdf_path := pdf']> (tmp w); s3_objects := s3_objects w |},
         Ok tt)
    | Raise e => (w, Raise e)
    end.
Proof. intros Hin. unfold fill_pdf. by rewrite stage_on_files, Hin. Qed.

Lemma set_fields_readonly_on_files pdf_in pdf_out fields w pdf :
  tmp w !! pdf_in = Some pdf →
  set_fields_readonly pdf_in pdf_out fields w
  = match readonly_document fields pdf with
    | Ok pdf' =>
        ({| tmp := <[pdf_out := pdf']> (tmp w); s3_objects := s3_objects w |}, Ok tt)
    | Raise e => (w, Raise e)
    end.
Proof. intros Hin. unfold set_fields_readonly. by rewrite stage_on_files, Hin. Qed.

Lemma set_button_visibility_on_files pdf_in pdf_out visibility_map w pdf :
  tmp w !! pdf_in = Some pdf →
  set_button_visibility pdf_in pdf_out visibility_map w
  = match visibility_document visibility_map pdf with
    | Ok pdf' =>
        ({| tmp := <[pdf_out := pdf']> (tmp w); s3_objects := s3_objects w |}, Ok tt)
    | Raise e => (w, Raise e)
    end.
Proof. intros Hin. unfold set_button_visibility. by rewrite stage_on_files, Hin. Qed.

(** ** [lambda_handler] *)

Section HandlerRun.

Variable uuid4 : string.
Variable sign : string -> string -> Z -> string.

Lemma handler_not_dict body w :
  (∀ entries, body ≠ JDict entries) →
  lambda_handler uuid4 sign body w = (w, Raise AttributeError).
Proof. intros Hbody. destruct body; try done. by destruct (Hbody entries). Qed.

Lemma handler_no_template entries w :
  s3_object w BUCKET_NAME (template_path_of entries) = None →
  lambda_handler uuid4 sign (JDict entries) w = (w, Raise S3Error).
Proof.
  intros Hobject. unfold lambda_handler, mbind, IO_bind, lift; simpl.
  unfold s3_download_file. fold (template_path_of entries). by rewrite Hobject.
Qed.

(** The run of the handler once the template is there: the files it leaves
    in [/tmp], the object it uploads, and its result. *)
Lemma handler_run entries w template :
  s3_object w BUCKET_NAME (template_path_of entries) = Some template →
  let w1 := {| tmp := <["/tmp/template.pdf" := template]> (tmp w);
               s3_objects := s3_objects w |} in
  lambda_handler uuid4 sign (JDict entries) w =
  match fill_document entries template with
  | Raise e => (w1, Raise e)
  | Ok filled =>
      let w2 := {| tmp := <["/tmp/filled.pdf" := filled]> (tmp w1);
                   s3_objects := s3_objects w |} in
      match readonly_document None filled with
      | Raise e => (w2, Raise e)
      | Ok locked =>
          let w3 := {| tmp := <["/tmp/locked.pdf" := locked]> (tmp w2);
                       s3_objects := s3_objects w |} in
          match visibility_document (visibility_map_of entries) locked with
          | Raise e => (w3, Raise e)
          | Ok visible =>
              ({| tmp := <["/tmp/visibility.pdf" := visible]> (tmp w3);
                  s3_objects := <[(BUCKET_NAME, output_key_of uuid4) := visible]>
                                  (s3_objects w) |},
               Ok (answer uuid4 sign))
          end
      end
  end.
Proof.
  intros Hobject w1.
  unfold lambda_handler, mbind, IO_bind, lift; simpl.
  unfold s3_download_file. fold (template_path_of entries). rewrite Hobject.
  unfold fill_pdf, mbind, IO_bind, PdfReader, lift; simpl.
  rewrite lookup_insert_eq.
  destruct (fill_document entries template) as [filled|e]; [|done].
  unfold PdfWriter_write; simpl.
  unfold set_fields_readonly, mbind, IO_bind, PdfReader, lift; simpl.
  rewrite lookup_insert_eq.
  destruct (readonly_document None filled) as [locked|e]; [|done].
  unfold PdfWriter_write; simpl.
  unfold set_button_visibility, mbind, IO_bind, PdfReader, lift; simpl.
  rewrite lookup_insert_eq. fold (visibility_map_of entries).
  destruct (visibility_document (visibility_map_of entries) locked) as [visible|e];
    [|done].
  unfold PdfWriter_write, s3_upload_file; simpl.
  rewrite lookup_insert_eq. done.
Qed.

(** The result alone. *)
Lemma handler_result entries w template :
  s3_object w BUCKET_NAME (template_path_of entries) = Some template →
  snd (lambda_handler uuid4 sign (JDict entries) w)
  = match pipeline entries template with
    | Ok _ => Ok (answer uuid4 sign)
    | Raise e => Raise e
    end.
Proof.
  intros Hobject. rewrite (handler_run _ _ _ Hobject). unfold pipeline.
  destruct (fill_document entries template) as [filled|e]; [|done]. simpl.
  destruct (readonly_document None filled) as [locked|e]; [|done]. simpl.
  by destruct (visibility_document (visibility_map_of entries) locked).
Qed.

End HandlerRun.

(** ** A request without [visibility_map] *)

Lemma mapM_Raise_inv {A B : Type} (f : A -> Result B) (l : list A) (e : PyError) :
  mapM f l = Raise e → ∃ a, a ∈ l ∧ f a = Raise e.
Proof.
  induction l as [|a l IH]; [done|].
  change (mapM f (a :: l)) with (f a ≫= λ y, mapM f l ≫= λ k, mret (y :: k)).
  destruct (f a) as [b|e'] eqn:Ha; simpl.
  - destruct (mapM f l) as [k|e'] eqn:Hl; simpl; [done|].
    intros [= ->]. destruct (IH eq_refl) as (a' & Hin & Ha').
    exists a'. split; [by right | done].
  - intros [= ->]. exists a. split; [by left | done].
Qed.

Lemma new_annots_Raise_inv visibility_map annots e :
  new_annots visibility_map annots = Raise e →
  ∃ annot, annot ∈ annots ∧ visibility_annot visibility_map annot = Raise e.
Proof.
  induction annots as [|a l IH]; simpl; [done|].
  destruct (visibility_annot visibility_map a) as [k|e'] eqn:Ha; simpl.
  - destruct (new_annots visibility_map l) as [rest|e'] eqn:Hl; simpl; [done|].
    intros [= ->]. destruct (IH eq_refl) as (a' & Hin & Ha').
    exists a'. split; [by right | done].
  - intros [= ->]. exists a. split; [by left | done].
Qed.

Lemma visibility_annot_error visibility_map annot e :
  visibility_annot visibility_map annot = Raise e → e = TypeError.
Proof.
  unfold visibility_annot. destruct (is_named_widget annot); [|done].
  destruct (slice_1_m1 (annot !! "/T")) as [key|e'] eqn:Hkey; simpl.
  2:{ intros [= <-]. by destruct (annot !! "/T") as [[?|?]|]; simplify_eq/=. }
  destruct visibility_map as [| | | |items|entries]; simpl; try by intros [= <-].
  - destruct (is_substring key s); simpl; by intros [= <-].
  - destruct (existsb _ items); simpl; by intros [= <-].
  - destruct (dict_get entries key) as [shown|] eqn:Hshown.
    + rewrite bool_decide_eq_true_2 by eauto. simpl.
      by destruct (py_truthy shown).
    + rewrite bool_decide_eq_false_2; [done|]. by intros [? ?].
Qed.

(** The stage raises nothing but [TypeError]: on an annotation, or at
    [page.pop('/Annots', None)]. *)
Lemma visibility_page_error visibility_map page e :
  visibility_page visibility_map page = Raise e → e = TypeError.
Proof.
  destruct page as [[[|a l]|] ents]; [done| |done].
  rewrite visibility_page_listing.
  destruct (new_annots visibility_map (a :: l)) as [[|a' l']|e'] eqn:Hkept;
    [by intros [= <-]|done|].
  intros [= ->].
  apply new_annots_Raise_inv in Hkept as (annot & _ & Hannot).
  by apply visibility_annot_error in Hannot.
Qed.

Lemma visibility_document_error visibility_map pdf e :
  visibility_document visibility_map pdf = Raise e → e = TypeError.
Proof.
  unfold visibility_document, each_page.
  destruct (mapM (visibility_page visibility_map) (pages pdf)) as [ps|e'] eqn:Hps;
    [done|].
  simpl. intros [= ->].
  apply mapM_Raise_inv in Hps as (page & _ & Hpage).
  by apply visibility_page_error in Hpage.
Qed.

(** A page on which the loop body raises makes the stage raise. *)
Lemma visibility_document_page_raises visibility_map pdf i page e :
  pages pdf !! i = Some page → visibility_page visibility_map page = Raise e →
  visibility_document visibility_map pdf = Raise TypeError.
Proof.
  intros Hi Hpage.
  destruct (mapM_Raise (visibility_page visibility_map) (pages pdf) page e)
    as [e' He']; [by eapply list_elem_of_lookup_2 | done |].
  assert (Hdoc : visibility_document visibility_map pdf = Raise e').
  { unfold visibility_document, each_page. by rewrite He'. }
  by rewrite Hdoc, (visibility_document_error _ _ _ Hdoc).
Qed.

(** An annotation on which the loop raises makes the loop body raise on its
    page. *)
Lemma visibility_page_annot_raises visibility_map page annot e :
  annot ∈ annots_of page → visibility_annot visibility_map annot = Raise e →
  ∃ e', visibility_page visibility_map page = Raise e'.
Proof.
  destruct page as [[[|a l]|] ents]; unfold annots_of;
    [by intros ?%elem_of_nil| |by intros ?%elem_of_nil].
  change (default [] (Annots {| Annots := Some (a :: l); page_entries := ents |}))
    with (a :: l).
  intros Hin Hannot.
  destruct (new_annots_Raise _ _ _ _ Hin Hannot) as [e' He'].
  rewrite visibility_page_listing, He'. eauto.
Qed.

(** C8 (the code departs from it): on a page that has annotations, when the
    rebuilt list is empty, [set_button_visibility] does not remove [/Annots]
    from the page: [page.pop('/Annots', None)] at line 97 raises [TypeError],
    so the page loop raises, the stage raises on every document with such a
    page, and no output file is written. *)
Theorem visibility_raises_on_emptied_page (visibility_map : JValue) (page : Page) :
  annots_of page ≠ [] →
  new_annots visibility_map (annots_of page) = Ok [] →
  visibility_page visibility_map page = Raise TypeError
  ∧ ∀ pdf i,
      pages pdf !! i = Some page →
      visibility_document visibility_map pdf = Raise TypeError
      ∧ ∀ w pdf_in pdf_out,
          tmp w !! pdf_in = Some pdf →
          set_button_visibility pdf_in pdf_out visibility_map w
          = (w, Raise TypeError).
Proof.
  intros Hannots Hnil.
  assert (Hpage : visibility_page visibility_map page = Raise TypeError).
  { destruct page as [[[|a l]|] ents]; [done| |done].
    change (annots_of {| Annots := Some (a :: l); page_entries := ents |})
      with (a :: l) in Hnil.
    by rewrite visibility_page_listing, Hnil. }
  split; [exact Hpage|]. intros pdf i Hi.
  pose proof (visibility_document_page_raises _ _ _ _ _ Hi Hpage) as Hdoc.
  split; [exact Hdoc|]. intros w pdf_in pdf_out Hin.
  by rewrite (set_button_visibility_on_files _ _ _ _ _ Hin), Hdoc.
Qed.

Lemma visibility_raises_on_emptied_page_witness :
  let page := {| Annots := Some [widget "signature" ∅]; page_entries := ∅ |} in
  let visibility_map := JDict [("signature", JBool false)] in
  annots_of page ≠ []
  ∧ new_annots visibility_map (annots_of page) = Ok []
  ∧ visibility_page visibility_map page = Raise TypeError
  ∧ visibility_document visibility_map {| pages := [page]; AcroForm := None |}
    = Raise TypeError.
Proof.
  intros page visibility_map.
  assert (Hannots : annots_of page ≠ []) by discriminate.
  assert (Hnil : new_annots visibility_map (annots_of page) = Ok [])
    by (vm_compute; reflexivity).
  split; [exact Hannots|]. split; [exact Hnil|].
  destruct (visibility_raises_on_emptied_page visibility_map page Hannots Hnil)
    as [Hpage Hdoc].
  split; [exact Hpage|].
  exact (proj1 (Hdoc {| pages := [page]; AcroForm := None |} 0%nat eq_refl)).
Defined.

Lemma visibility_annot_None_error annot e :
  visibility_annot JNull annot = Raise e → e = TypeError.
Proof.
  unfold visibility_annot. destruct (is_named_widget annot); [|done].
  destruct (annot !! "/T") as [[raw|n]|]; simpl; congruence.
Qed.

Lemma visibility_document_None_error pdf e :
  visibility_document JNull pdf = Raise e → e = TypeError.
Proof. apply visibility_document_error. Qed.

(** [None] as the mapping makes the stage raise as soon as a page lists a
    named widget. *)
Lemma visibility_document_None_raises pdf i j annot key :
  annot_at pdf i j = Some annot → named_widget annot key →
  visibility_document JNull pdf = Raise TypeError.
Proof.
  intros (page & Hi & Hin)%annot_at_elem Hkey.
  destruct (visibility_page_annot_raises JNull page annot TypeError Hin)
    as [e He]; [by eapply visibility_annot_None|].
  by eapply visibility_document_page_raises.
Qed.

Lemma fill_annot_named_widget data annot annot' key :
  fill_annot data annot = Ok annot' → named_widget annot key →
  named_widget annot' key.
Proof.
  intros [->|[text ->]]%fill_annot_result; [done|].
  by rewrite !named_widget_insert.
Qed.

Lemma readonly_annot_named_widget fields annot annot' key :
  readonly_annot fields annot = Ok annot' → named_widget annot key →
  named_widget annot' key.
Proof.
  intros [->|[flags ->]]%readonly_annot_result; [done|].
  by rewrite named_widget_insert.
Qed.

(** With no [visibility_map] in the body the pipeline raises on a template
    that lists a named widget. *)
Lemma pipeline_without_visibility_map entries template i j annot key :
  dict_get entries "visibility_map" = None →
  annot_at template i j = Some annot → named_widget annot key →
  ∃ e, pipeline entries template = Raise e
       ∧ (text_names template → int_flags template → e = TypeError).
Proof.
  intros Hmap Hat Hkey. unfold pipeline, visibility_map_of. rewrite Hmap. simpl.
  destruct (fill_document entries template) as [filled|e] eqn:Hfilled; simpl.
  2:{ exists e. split; [done|]. intros Htext _.
      destruct (fill_document_total entries template Htext). congruence. }
  destruct (each_annot_at _ _ _ _ _ _ Hfilled Hat) as (annot1 & Hannot1 & Hat1).
  pose proof (fill_annot_named_widget _ _ _ _ Hannot1 Hkey) as Hkey1.
  destruct (readonly_document None filled) as [locked|e] eqn:Hlocked; simpl.
  2:{ exists e. split; [done|]. intros Htext Hint.
      destruct (readonly_document_total filled); [..|congruence].
      - by eapply fill_document_text_names.
      - by eapply fill_document_int_flags. }
  destruct (each_annot_at _ _ _ _ _ _ Hlocked Hat1) as (annot2 & Hannot2 & Hat2).
  pose proof (readonly_annot_named_widget _ _ _ _ Hannot2 Hkey1) as Hkey2.
  exists TypeError. split; [|done].
  by eapply visibility_document_None_raises.
Qed.

(** C2 (the code departs from it): when the body has no [visibility_map]
    and the template lists a named widget, the handler does not return
    status 200: it raises, and on a well-formed template (names that are
    text, flags that are integers) the exception is the [TypeError] of
    [key in visibility_map] at line 81, [visibility_map] being [None]. *)
Theorem handler_without_visibility_map_raises (uuid4 : string)
    (sign : string -> string -> Z -> string) (w : World)
    (entries : list (string * JValue)) (template : Document)
    (i j : nat) (annot : PdfDict) (key : string) :
  dict_get entries "visibility_map" = None →
  s3_object w BUCKET_NAME (template_path_of entries) = Some template →
  annot_at template i j = Some annot → named_widget annot key →
  ∃ e, snd (lambda_handler uuid4 sign (JDict entries) w) = Raise e
       ∧ (∀ response, snd (lambda_handler uuid4 sign (JDict entries) w) ≠ Ok response)
       ∧ (text_names template → int_flags template → e = TypeError).
Proof.
  intros Hmap Hobject Hat Hkey.
  destruct (pipeline_without_visibility_map entries template i j annot key)
    as (e & Hraise & Herror); [done..|].
  exists e. rewrite (handler_result _ _ _ _ _ Hobject), Hraise. done.
Qed.

Lemma handler_without_visibility_map_raises_witness :
  dict_get [("name", JStr "Alice")] "visibility_map" = None
  ∧ s3_object sample_world BUCKET_NAME (template_path_of [("name", JStr "Alice")])
    = Some two_widgets
  ∧ snd (lambda_handler sample_uuid4 sample_sign
           (JDict [("name", JStr "Alice")]) sample_world) = Raise TypeError.
Proof.
  assert (Hmap : dict_get [("name", JStr "Alice")] "visibility_map" = None)
    by reflexivity.
  assert (Hobject : s3_object sample_world BUCKET_NAME
                      (template_path_of [("name", JStr "Alice")]) = Some two_widgets)
    by (vm_compute; reflexivity).
  split; [exact Hmap|]. split; [exact Hobject|].
  destruct (handler_without_visibility_map_raises sample_uuid4 sample_sign
              sample_world [("name", JStr "Alice")] two_widgets 0 0
              (widget "name" (<["/Ff" := PdfStr "0"]> {["/F" := PdfStr "0"]})) "name"
              Hmap Hobject)
    as (e & Hraise & _ & Herror); [evaluated..|].
  rewrite Hraise. f_equal. apply Herror; evaluated.
Defined.

(** The handler on the failing request of C2, evaluated. *)
Example handler_without_visibility_map_sample :
  snd (lambda_handler sample_uuid4 sample_sign
         (JDict [("name", JStr "Alice")]) sample_world) = Raise TypeError
  ∧ snd (lambda_handler sample_uuid4 sample_sign
           (JDict [("name", JStr "Alice"); ("visibility_map", JDict [])]) sample_world)
    = Ok (answer sample_uuid4 sample_sign).
Proof. split; vm_compute; reflexivity. Qed.

(** ** The scenario of the two widgets *)

Lemma each_annot_page body a annots annots' rest :
  Forall2 (fun x y => body x = Ok y) (a :: annots) annots' →
  each_annot body {| Annots := Some (a :: annots); page_entries := rest |}
  = Ok {| Annots := Some annots'; page_entries := rest |}.
Proof. intros Hall%mapM_Ok. unfold each_annot. simpl. by rewrite Hall. Qed.

Lemma each_page_single body page page' form :
  body page = Ok page' →
  each_page body {| pages := [page]; AcroForm := form |}
  = Ok {| pages := [page']; AcroForm := need_appearances form |}.
Proof. intros Hpage. apply each_page_Ok. split; [|done]. by repeat constructor. Qed.

(** C6: on a template of one page listing a widget [name] and a widget
    [signature], both of flags 0, the stages in a row with the data
    [{"name": "Alice"}], all fields read-only and the mapping
    [{"signature": false}] all return, and the page of the final document
    lists one annotation: the widget [name] with value [Alice] and flags 1
    (bit 0, read-only, set); the widget [signature] is gone. *)
Theorem scenario_name_locked_signature_removed
    (name_w signature_w rest : PdfDict) (form : option PdfDict) :
  named_widget name_w "name" → named_widget signature_w "signature" →
  existing_flags name_w = Ok 0%Z → existing_flags signature_w = Ok 0%Z →
  let template :=
    {| pages := [ {| Annots := Some [name_w; signature_w]; page_entries := rest |} ];
       AcroForm := form |} in
  let final :=
    <["/Ff" := PdfInt 1]>
      (<["/V" := PdfStr "Alice"]> (<["/AS" := PdfStr "Alice"]> name_w)) in
  ∃ filled locked visible,
    fill_document [("name", JStr "Alice")] template = Ok filled
    ∧ readonly_document None filled = Ok locked
    ∧ visibility_document (JDict [("signature", JBool false)]) locked = Ok visible
    ∧ pages visible = [ {| Annots := Some [final]; page_entries := rest |} ]
    ∧ named_widget final "name"
    ∧ final !! "/V" = Some (PdfStr "Alice")
    ∧ final !! "/Ff" = Some (PdfInt 1)
    ∧ existing_flags final = Ok 1%Z
    ∧ Z.testbit 1 0 = true
    ∧ ¬ named_widget final "signature".
Proof.
  intros Hname Hsignature Hflags_name Hflags_signature template final.
  set (name1 := <["/V" := PdfStr "Alice"]> (<["/AS" := PdfStr "Alice"]> name_w)).
  set (signature2 := <["/Ff" := PdfInt 1]> signature_w).
  assert (Hname1 : named_widget name1 "name")
    by (by apply named_widget_insert; [..|apply named_widget_insert]).
  assert (Hfinal : named_widget final "name") by (by apply named_widget_insert).
  assert (Hsignature2 : named_widget signature2 "signature")
    by (by apply named_widget_insert).
  exists {| pages := [ {| Annots := Some [name1; signature_w]; page_entries := rest |} ];
            AcroForm := need_appearances form |},
         {| pages := [ {| Annots := Some [final; signature2]; page_entries := rest |} ];
            AcroForm := need_appearances (need_appearances form) |},
         {| pages := [ {| Annots := Some [final]; page_entries := rest |} ];
            AcroForm := need_appearances (need_appearances (need_appearances form)) |}.
  split; [|split; [|split]].
  - apply each_page_single, each_annot_page. repeat constructor.
    + by rewrite (fill_annot_named _ _ _ Hname).
    + by rewrite (fill_annot_named _ _ _ Hsignature).
  - apply each_page_single, each_annot_page. repeat constructor.
    + rewrite (readonly_annot_all _ _ Hname1). unfold name1.
      by rewrite !existing_flags_insert_others, Hflags_name.
    + by rewrite (readonly_annot_all _ _ Hsignature), Hflags_signature.
  - apply each_page_single. unfold visibility_page; simpl.
    by rewrite (visibility_annot_named _ _ _ Hfinal),
         (visibility_annot_named _ _ _ Hsignature2).
  - split; [done|]. split; [done|].
    assert (HFf : final !! "/Ff" = Some (PdfInt 1)) by apply lookup_insert_eq.
    split; [|split; [done|split; [|split; [done|]]]].
    + unfold final. rewrite lookup_insert_ne by done. apply lookup_insert_eq.
    + unfold existing_flags. by rewrite HFf.
    + intros Hother. by pose proof (named_widget_unique _ _ _ Hfinal Hother).
Qed.

Lemma scenario_name_locked_signature_removed_witness :
  let name_w := widget "name" (<["/Ff" := PdfStr "0"]> {["/F" := PdfStr "0"]}) in
  let signature_w := widget "signature" (<["/Ff" := PdfStr "0"]> {["/F" := PdfStr "0"]}) in
  named_widget name_w "name" ∧ named_widget signature_w "signature"
  ∧ existing_flags name_w = Ok 0%Z ∧ existing_flags signature_w = Ok 0%Z
  ∧ ∃ filled locked visible,
      fill_document [("name", JStr "Alice")] two_widgets = Ok filled
      ∧ readonly_document None filled = Ok locked
      ∧ visibility_document (JDict [("signature", JBool false)]) locked = Ok visible
      ∧ pages visible
        = [ {| Annots := Some [ <["/Ff" := PdfInt 1]>
                                  (<["/V" := PdfStr "Alice"]>
                                     (<["/AS" := PdfStr "Alice"]> name_w)) ];
               page_entries := {["/Type" := PdfStr "/Page"]} |} ].
Proof.
  intros name_w signature_w.
  assert (Hname : named_widget name_w "name") by evaluated.
  assert (Hsignature : named_widget signature_w "signature") by evaluated.
  assert (Hflags_name : existing_flags name_w = Ok 0%Z) by evaluated.
  assert (Hflags_signature : existing_flags signature_w = Ok 0%Z) by evaluated.
  split; [exact Hname|]. split; [exact Hsignature|].
  split; [exact Hflags_name|]. split; [exact Hflags_signature|].
  destruct (scenario_name_locked_signature_removed name_w signature_w
              {["/Type" := PdfStr "/Page"]}
              (Some {["/DA" := PdfStr "(/Helv 0 Tf 0 g)"]})
              Hname Hsignature Hflags_name Hflags_signature)
    as (filled & locked & visible & Hfilled & Hlocked & Hvisible & Hpages & _).
  by exists filled, locked, visible.
Defined.

(** The same scenario through the handler: the request succeeds and the
    uploaded document lists the widget [name] alone, filled and read-only. *)
Example scenario_through_handler :
  let body := JDict [("name", JStr "Alice");
                     ("visibility_map", JDict [("signature", JBool false)])] in
  let run := lambda_handler sample_uuid4 sample_sign body sample_world in
  snd run = Ok (answer sample_uuid4 sample_sign)
  ∧ (pages <$> s3_objects (fst run) !! (BUCKET_NAME, output_key_of sample_uuid4))
    = Some [ {| Annots :=
                  Some [ <["/Ff" := PdfInt 1]>
                           (<["/V" := PdfStr "Alice"]>
                              (<["/AS" := PdfStr "Alice"]>
                                 (widget "name"
                                    (<["/Ff" := PdfStr "0"]> {["/F" := PdfStr "0"]})))) ];
                page_entries := {["/Type" := PdfStr "/Page"]} |} ].
Proof. split; vm_compute; reflexivity. Qed.

(** ** The whole body as field data *)

Lemma visibility_annot_result visibility_map annot annot' :
  visibility_annot visibility_map annot = Ok (Some annot') →
  annot' = annot ∨ annot' = <["/F" := PdfInt 0]> annot.
Proof.
  unfold visibility_annot. destruct (is_named_widget annot).
  - intros (key & _ & (listed & _ & Hresult)%bind_Ok)%bind_Ok.
    destruct listed.
    + apply bind_Ok in Hresult as (shown & _ & Hresult).
      destruct (py_truthy shown); [|done]. injection Hresult as <-. by right.
    + injection Hresult as <-. by left.
  - intros [= <-]. by left.
Qed.

Lemma visibility_document_all (P Q : PdfDict -> Prop) visibility_map pdf pdf' :
  (∀ annot annot',
      P annot → visibility_annot visibility_map annot = Ok (Some annot') → Q annot') →
  visibility_document visibility_map pdf = Ok pdf' →
  all_annots P pdf → all_annots Q pdf'.
Proof.
  intros Hbody [Hps _]%each_page_Ok. unfold all_annots.
  induction Hps as [|page page' ps ps' Hpage _ IH]; [constructor|].
  intros [HP Hrest]%Forall_cons. constructor; [|by apply IH].
  apply visibility_page_Ok in Hpage as (Hnew & _).
  apply Forall_forall. intros annot' Hin.
  apply (new_annots_elem _ _ _ _ Hnew) in Hin as (annot & Hin & Hvis).
  rewrite Forall_forall in HP. eauto.
Qed.

(** The value a filled widget of name [key] carries. *)
Lemma fill_annot_value data annot annot' key value :
  text_name annot → dict_get data key = Some value →
  fill_annot data annot = Ok annot' → named_widget annot' key →
  annot' !! "/V" = Some (PdfStr (py_str value))
  ∧ annot' !! "/AS" = Some (PdfStr (py_str value)).
Proof.
  intros Htext Hvalue Hfill Hkey'.
  pose proof Hfill as [->|[text Htext']]%fill_annot_result.
  - rewrite (fill_annot_named _ _ _ Hkey'), Hvalue in Hfill.
    injection Hfill as Hfill. rewrite <- Hfill at 1 2.
    split; [apply lookup_insert_eq|].
    rewrite lookup_insert_ne by done. apply lookup_insert_eq.
  - assert (Hkey : named_widget annot key).
    { subst annot'. by rewrite !named_widget_insert in Hkey'. }
    rewrite (fill_annot_named _ _ _ Hkey), Hvalue in Hfill.
    injection Hfill as <-. split; [apply lookup_insert_eq|].
    rewrite lookup_insert_ne by done. apply lookup_insert_eq.
Qed.

(** C10: the handler gives the whole body to [fill_pdf].  Once the template
    is fetched (its names being text), for every key of the body, so for
    [template_path] and [visibility_map] too, the file [/tmp/filled.pdf]
    holds the template where each widget of that name has [/V] and [/AS]
    equal to [str] of the value of the key; when the handler returns, every
    widget of that name in the uploaded document carries this value.  For
    [template_path] the value is the path text itself, for [visibility_map]
    it is the mapping given to [set_button_visibility]. *)
Theorem handler_fills_from_whole_body (uuid4 : string)
    (sign : string -> string -> Z -> string) (w : World)
    (entries : list (string * JValue)) (template : Document)
    (key : string) (value : JValue) :
  s3_object w BUCKET_NAME (template_path_of entries) = Some template →
  text_names template →
  dict_get entries key = Some value →
  let run := lambda_handler uuid4 sign (JDict entries) w in
  let filled_as (annot' : PdfDict) :=
    annot' !! "/V" = Some (PdfStr (py_str value))
    ∧ annot' !! "/AS" = Some (PdfStr (py_str value)) in
  (∃ filled,
      fill_document entries template = Ok filled
      ∧ tmp (fst run) !! "/tmp/filled.pdf" = Some filled
      ∧ ∀ i j annot,
          annot_at template i j = Some annot → named_widget annot key →
          ∃ annot', annot_at filled i j = Some annot'
                    ∧ named_widget annot' key ∧ filled_as annot')
  ∧ (∀ response,
        snd run = Ok response →
        ∃ visible,
          s3_objects (fst run) !! (BUCKET_NAME, output_key_of uuid4) = Some visible
          ∧ all_annots (fun annot' => named_widget annot' key → filled_as annot') visible)
  ∧ (key = "template_path" → ∃ path, value = JStr path ∧ py_str value = path)
  ∧ (key = "visibility_map" → visibility_map_of entries = value).
Proof.
  intros Hobject Htext Hvalue run filled_as.
  destruct (fill_document_total entries template Htext) as [filled Hfilled].
  assert (Hall : all_annots (fun annot' => named_widget annot' key → filled_as annot')
                   filled).
  { eapply (each_annot_all text_name); [|exact Hfilled|exact Htext].
    intros annot annot' Hannot Hfill Hkey'.
    by eapply fill_annot_value. }
  assert (Hrun : run = lambda_handler uuid4 sign (JDict entries) w) by done.
  rewrite (handler_run _ _ _ _ _ Hobject), Hfilled in Hrun. simpl in Hrun.
  split; [|split; [|split]].
  - exists filled. split; [done|]. split.
    + rewrite Hrun. destruct (readonly_document None filled) as [locked|e]; simpl.
      * destruct (visibility_document (visibility_map_of entries) locked); simpl;
          rewrite ?lookup_insert_ne by done; apply lookup_insert_eq.
      * apply lookup_insert_eq.
    + intros i j annot Hat Hkey.
      destruct (each_annot_at _ _ _ _ _ _ Hfilled Hat) as (annot' & Hannot' & Hat').
      exists annot'. split; [done|].
      pose proof (fill_annot_named_widget _ _ _ _ Hannot' Hkey) as Hkey'.
      split; [done|]. by apply (all_annots_at _ _ _ _ _ Hall Hat').
  - intros response. rewrite Hrun.
    destruct (readonly_document None filled) as [locked|e] eqn:Hlocked; [|done].
    destruct (visibility_document (visibility_map_of entries) locked)
      as [visible|e] eqn:Hvisible; [|done].
    simpl. intros _. exists visible. split; [apply lookup_insert_eq|].
    assert (Hkeep : ∀ k v annot,
              k ≠ "/Subtype" → k ≠ "/T" → k ≠ "/V" → k ≠ "/AS" →
              (named_widget annot key → filled_as annot) →
              named_widget (<[k := v]> annot) key → filled_as (<[k := v]> annot)).
    { intros k v annot Hsub HT HV HAS Hannot Hkey'%named_widget_insert; [|done..].
      destruct (Hannot Hkey') as [H1 H2]. unfold filled_as.
      by rewrite !lookup_insert_ne. }
    eapply visibility_document_all; [|exact Hvisible|].
    2:{ eapply each_annot_all; [|exact Hlocked|exact Hall].
        intros annot annot' Hannot [->|[flags ->]]%readonly_annot_result; [done|].
        simpl in *. by apply Hkeep. }
    intros annot annot' Hannot [-> | ->]%visibility_annot_result; [done|].
    simpl in *. by apply Hkeep.
  - intros ->. unfold template_path_of in Hobject. rewrite Hvalue in Hobject.
    simpl in Hobject. destruct value; try done. by eexists.
  - intros ->. unfold visibility_map_of. by rewrite Hvalue.
Qed.

Lemma handler_fills_from_whole_body_witness :
  s3_object reserved_world BUCKET_NAME (template_path_of reserved_request)
  = Some reserved_names
  ∧ text_names reserved_names
  ∧ dict_get reserved_request "visibility_map"
    = Some (JDict [("template_path", JBool true)])
  ∧ ∃ filled annot',
      tmp (fst (lambda_handler sample_uuid4 sample_sign (JDict reserved_request)
                  reserved_world)) !! "/tmp/filled.pdf" = Some filled
      ∧ annot_at filled 0 1 = Some annot'
      ∧ annot' !! "/V" = Some (PdfStr "{'template_path': True}").
Proof.
  assert (Hobject : s3_object reserved_world BUCKET_NAME
                      (template_path_of reserved_request) = Some reserved_names)
    by (vm_compute; reflexivity).
  assert (Htext : text_names reserved_names) by evaluated.
  assert (Hvalue : dict_get reserved_request "visibility_map"
                   = Some (JDict [("template_path", JBool true)])) by reflexivity.
  split; [exact Hobject|]. split; [exact Htext|]. split; [exact Hvalue|].
  destruct (handler_fills_from_whole_body sample_uuid4 sample_sign reserved_world
              reserved_request reserved_names "visibility_map" _
              Hobject Htext Hvalue)
    as ((filled & _ & Htmp & Hfilled) & _).
  destruct (Hfilled 0%nat 1%nat (widget "visibility_map" ∅))
    as (annot' & Hat' & _ & HV & _); [evaluated..|].
  by exists filled, annot'.
Defined.

(** The reserved keys on a sample request: the widget [template_path] gets
    the path, the widget [visibility_map] the text of the mapping, in the
    filled file and in the uploaded document (where the former, shown, also
    has [/F] 0 and both are read-only). *)
Example reserved_keys_fill_widgets :
  let run := lambda_handler sample_uuid4 sample_sign (JDict reserved_request)
               reserved_world in
  snd run = Ok (answer sample_uuid4 sample_sign)
  ∧ (pages <$> tmp (fst run) !! "/tmp/filled.pdf")
    = Some [ {| Annots :=
                  Some [ <["/V" := PdfStr "forms/reserved.pdf"]>
                           (<["/AS" := PdfStr "forms/reserved.pdf"]>
                              (widget "template_path" ∅));
                         <["/V" := PdfStr "{'template_path': True}"]>
                           (<["/AS" := PdfStr "{'template_path': True}"]>
                              (widget "visibility_map" ∅)) ];
                page_entries := ∅ |} ]
  ∧ (pages <$> s3_objects (fst run) !! (BUCKET_NAME, output_key_of sample_uuid4))
    = Some [ {| Annots :=
                  Some [ <["/F" := PdfInt 0]>
                           (<["/Ff" := PdfInt 1]>
                              (<["/V" := PdfStr "forms/reserved.pdf"]>
                                 (<["/AS" := PdfStr "forms/reserved.pdf"]>
                                    (widget "template_path" ∅))));
                         <["/Ff" := PdfInt 1]>
                           (<["/V" := PdfStr "{'template_path': True}"]>
                              (<["/AS" := PdfStr "{'template_path': True}"]>
                                 (widget "visibility_map" ∅))) ];
                page_entries := ∅ |} ].
Proof. repeat split; vm_compute; reflexivity. Qed.

(** * Further properties of the stages *)

(** ** Tools *)

Lemma is_named_widget_insert annot k v :
  k ≠ "/Subtype" → k ≠ "/T" →
  is_named_widget (<[k := v]> annot) = is_named_widget annot.
Proof. intros Hsub HT. unfold is_named_widget. by rewrite !lookup_insert_ne. Qed.

Lemma insert_swap (annot : PdfDict) k1 v1 k2 v2 :
  k1 ≠ k2 → <[k1 := v1]> (<[k2 := v2]> annot) = <[k2 := v2]> (<[k1 := v1]> annot).
Proof.
  intros Hne. apply map_eq. intros k. rewrite !lookup_insert.
  repeat case_decide; congruence.
Qed.

Lemma insert_twice (annot : PdfDict) k v1 v2 :
  <[k := v1]> (<[k := v2]> annot) = <[k := v1]> annot.
Proof.
  apply map_eq. intros k'. rewrite !lookup_insert. by repeat case_decide.
Qed.

Lemma need_appearances_twice acroform :
  need_appearances (need_appearances acroform) = need_appearances acroform.
Proof.
  unfold need_appearances. destruct acroform as [form|]; [|done].
  case_bool_decide as Hform.
  - by rewrite bool_decide_eq_true_2.
  - rewrite bool_decide_eq_false_2 by apply insert_non_empty.
    by rewrite insert_twice.
Qed.

(** The page loop of [fill_pdf] and [set_fields_readonly], fully. *)
Lemma each_annot_iff body page page' :
  each_annot body page = Ok page' ↔
  Forall2 (fun a b => body a = Ok b) (annots_of page) (annots_of page')
  ∧ page_entries page' = page_entries page
  ∧ (Annots page' = None ↔ Annots page = None).
Proof.
  split; [apply each_annot_Ok|].
  unfold each_annot, annots_of.
  destruct page as [[[|a l]|] ents], page' as [annots' ents']; simpl.
  - intros (Hall & -> & Hnone).
    destruct annots' as [[|? ?]|]; simpl in Hall.
    + done.
    + inversion Hall.
    + by pose proof (proj1 Hnone eq_refl).
  - intros (Hall & -> & Hnone).
    destruct annots' as [k|]; [|by pose proof (proj1 Hnone eq_refl)].
    simpl in Hall. apply mapM_Ok in Hall. by rewrite Hall.
  - intros (Hall & -> & Hnone). by rewrite (proj2 Hnone eq_refl).
Qed.

(** An exception of such a stage is the exception of its body on one of the
    annotations. *)
Lemma each_annot_pdf_Raise_inv body pdf e :
  each_page (each_annot body) pdf = Raise e →
  ∃ i j annot, annot_at pdf i j = Some annot ∧ body annot = Raise e.
Proof.
  unfold each_page.
  destruct (mapM (each_annot body) (pages pdf)) as [ps|e'] eqn:Hps; [done|].
  simpl. intros [= ->].
  apply mapM_Raise_inv in Hps as (page & [i Hi]%list_elem_of_lookup & Hpage).
  unfold each_annot in Hpage.
  destruct (Annots page) as [[|a l]|] eqn:Hannots; try done.
  destruct (mapM body (a :: l)) as [k|e'] eqn:Hk; [done|].
  simpl in Hpage. injection Hpage as ->.
  apply mapM_Raise_inv in Hk as (annot & [j Hj]%list_elem_of_lookup & Hannot).
  exists i, j, annot. split; [|done].
  unfold annot_at, annots_of. rewrite Hi. simpl. by rewrite Hannots.
Qed.

Lemma each_annot_pdf_Raise body pdf i j annot e :
  annot_at pdf i j = Some annot → body annot = Raise e →
  ∃ e', each_page (each_annot body) pdf = Raise e'.
Proof.
  intros Hat Hannot.
  destruct (each_page (each_annot body) pdf) as [pdf'|e'] eqn:Hpdf'; [|by eauto].
  destruct (each_annot_at _ _ _ _ _ _ Hpdf' Hat) as (annot' & Hannot' & _).
  congruence.
Qed.

(** A stage whose body gives back what it is run on a second time does so
    itself. *)
Lemma each_annot_pdf_twice body pdf pdf' :
  (∀ annot annot', body annot = Ok annot' → body annot' = Ok annot') →
  each_page (each_annot body) pdf = Ok pdf' →
  each_page (each_annot body) pdf' = Ok pdf'.
Proof.
  intros Hbody [Hpages Hform]%each_page_Ok.
  rewrite each_page_id.
  - destruct pdf' as [ps form]. simpl in *. subst form.
    by rewrite need_appearances_twice.
  - apply Forall_forall. intros page' [i Hi']%list_elem_of_lookup.
    destruct (Forall2_lookup_r _ _ _ _ _ Hpages Hi') as (page & _ & Hpage).
    apply each_annot_Ok in Hpage as (Hannots & _).
    apply each_annot_id, Forall_forall. intros annot' [j Hj']%list_elem_of_lookup.
    destruct (Forall2_lookup_r _ _ _ _ _ Hannots Hj') as (annot & _ & Hannot).
    by eapply Hbody.
Qed.

(** ** [set_fields_readonly] with a list of fields *)

Lemma readonly_annot_listed names annot key :
  named_widget annot key →
  readonly_annot (Some names) annot =
    if bool_decide (key ∈ names)
    then flags ← existing_flags annot; Ok (<["/Ff" := PdfInt (Z.lor flags 1)]> annot)
    else Ok annot.
Proof.
  intros [Htest Hkey]%named_widget_test. unfold readonly_annot.
  rewrite Htest, Hkey. simpl. by case_bool_decide.
Qed.

(** X1: with a list of field names, [set_fields_readonly] returns as soon as
    names are text and the flags of the listed widgets are integers (the
    flags of the others are not read, and a listed name that no widget bears
    is no error); a widget whose name is listed gets bit 0 of [/Ff] set, at
    its place, and every other annotation stays as it was. *)
Theorem readonly_listed_fields (names : list string) (pdf : Document) :
  text_names pdf →
  all_annots (fun annot => ∀ key, named_widget annot key → key ∈ names →
                                  ∃ flags, existing_flags annot = Ok flags) pdf →
  ∃ pdf',
    readonly_document (Some names) pdf = Ok pdf'
    ∧ ∀ i j annot,
        annot_at pdf i j = Some annot →
        (∀ key flags,
            named_widget annot key → key ∈ names →
            existing_flags annot = Ok flags →
            annot_at pdf' i j = Some (<["/Ff" := PdfInt (Z.lor flags 1)]> annot))
        ∧ ((¬ ∃ key, named_widget annot key ∧ key ∈ names) →
           annot_at pdf' i j = Some annot).
Proof.
  intros Htext Hflags.
  assert (Htotal : ∃ pdf', readonly_document (Some names) pdf = Ok pdf').
  { apply each_annot_pdf_total.
    eapply all_annots_impl; [|apply (all_annots_and _ _ _ Htext Hflags)].
    intros annot [Hannot Hlisted]. simpl in *.
    destruct (named_widget_or_not annot Hannot) as [[key Hkey]|Hnot].
    - rewrite (readonly_annot_listed _ _ _ Hkey). case_bool_decide; [|by eauto].
      destruct (Hlisted key) as [flags ->]; [done..|]. simpl. eauto.
    - rewrite readonly_annot_other by done. eauto. }
  destruct Htotal as [pdf' Hpdf']. exists pdf'. split; [done|].
  intros i j annot Hat.
  destruct (each_annot_at _ _ _ _ _ _ Hpdf' Hat) as (annot' & Hannot' & Hat').
  split.
  - intros key flags Hkey Hin Hexisting.
    rewrite (readonly_annot_listed _ _ _ Hkey), bool_decide_eq_true_2, Hexisting
      in Hannot' by done.
    by injection Hannot' as <-.
  - intros Hother.
    destruct (named_widget_or_not annot) as [[key Hkey]|Hnot].
    + by apply (all_annots_at _ _ _ _ _ Htext Hat).
    + rewrite (readonly_annot_listed _ _ _ Hkey) in Hannot'.
      case_bool_decide as Hin; [destruct Hother; eauto|].
      by injection Hannot' as <-.
    + rewrite readonly_annot_other in Hannot' by done. by injection Hannot' as <-.
Qed.

(** ** [set_fields_readonly] on flags that are no integer *)

Lemma int_of_str_error s e : int_of_str s = Raise e → e = ValueError.
Proof.
  unfold int_of_str.
  destruct (skip_spaces s) as [|c s']; simpl.
  - by intros [= <-].
  - repeat case_match; by intros [= <-].
Qed.

Lemma existing_flags_error annot e :
  existing_flags annot = Raise e → e = ValueError.
Proof.
  unfold existing_flags. destruct (annot !! "/Ff") as [[s|n]|]; simpl; try done.
  apply int_of_str_error.
Qed.

Lemma readonly_annot_error fields annot e :
  text_name annot → readonly_annot fields annot = Raise e → e = ValueError.
Proof.
  intros [[key Hkey]|Hother]%named_widget_or_not.
  - apply named_widget_test in Hkey as [Htest Hslice]. unfold readonly_annot.
    rewrite Htest, Hslice. simpl.
    destruct (match fields with
              | None => true
              | Some names => bool_decide (key ∈ names)
              end); [|done].
    destruct (existing_flags annot) as [flags|e'] eqn:Hflags; simpl; [done|].
    intros [= <-]. by eapply existing_flags_error.
  - by rewrite readonly_annot_other.
Qed.

Lemma readonly_listed_fields_witness :
  text_names mixed_flags
  ∧ ∃ pdf',
      readonly_document (Some ["name"; "missing"]) mixed_flags = Ok pdf'
      ∧ annot_at pdf' 0 0
        = Some (<["/Ff" := PdfInt 5]> (widget "name" {["/Ff" := PdfStr "4"]}))
      ∧ annot_at pdf' 0 1 = Some (widget "amount" {["/Ff" := PdfStr "4.0"]}).
Proof.
  assert (Htext : text_names mixed_flags) by evaluated.
  assert (Hamount : named_widget (widget "amount" {["/Ff" := PdfStr "4.0"]}) "amount")
    by evaluated.
  assert (Hname : named_widget (widget "name" {["/Ff" := PdfStr "4"]}) "name")
    by evaluated.
  split; [exact Htext|].
  destruct (readonly_listed_fields ["name"; "missing"] mixed_flags Htext)
    as (pdf' & Hpdf' & Hat).
  { repeat constructor; intros key Hkey Hin.
    - exists 4%Z. vm_compute. reflexivity.
    - rewrite (named_widget_unique _ _ _ Hkey Hamount) in Hin.
      apply list_elem_of_In in Hin. simpl in Hin. by intuition.
    - by destruct Hkey as (_ & raw & Hraw & _). }
  exists pdf'. split; [exact Hpdf'|]. split.
  - apply (proj1 (Hat 0%nat 0%nat _ eq_refl) "name" 4%Z); [done| |evaluated].
    apply list_elem_of_In. by left.
  - apply (proj2 (Hat 0%nat 1%nat _ eq_refl)). intros (key & Hkey & Hin).
    rewrite (named_widget_unique _ _ _ Hkey Hamount) in Hin.
    apply list_elem_of_In in Hin. simpl in Hin. by intuition.
Defined.

(** X2: when a widget that [set_fields_readonly] is to lock has a [/Ff] that
    does not read as an integer, the stage raises [ValueError] (names being
    text) and [set_fields_readonly] writes no output file: the world is as
    it was. *)
Theorem readonly_raises_on_bad_flags (fields : option (list string))
    (pdf : Document) (i j : nat) (annot : PdfDict) (key : string) (e : PyError) :
  text_names pdf →
  annot_at pdf i j = Some annot → named_widget annot key →
  match fields with None => True | Some names => key ∈ names end →
  existing_flags annot = Raise e →
  readonly_document fields pdf = Raise ValueError
  ∧ ∀ w pdf_in pdf_out,
      tmp w !! pdf_in = Some pdf →
      set_fields_readonly pdf_in pdf_out fields w = (w, Raise ValueError).
Proof.
  intros Htext Hat Hkey Hlisted Hflags.
  assert (Hannot : readonly_annot fields annot = Raise e).
  { destruct fields as [names|].
    - by rewrite (readonly_annot_listed _ _ _ Hkey), bool_decide_eq_true_2, Hflags.
    - by rewrite (readonly_annot_all _ _ Hkey), Hflags. }
  destruct (each_annot_pdf_Raise _ _ _ _ _ _ Hat Hannot) as [e' Hraise].
  assert (Hdoc : readonly_document fields pdf = Raise ValueError).
  { unfold readonly_document, readonly_page. rewrite Hraise. f_equal.
    apply each_annot_pdf_Raise_inv in Hraise as (i' & j' & annot' & Hat' & Hannot').
    eapply readonly_annot_error; [|exact Hannot'].
    by apply (all_annots_at _ _ _ _ _ Htext Hat'). }
  split; [exact Hdoc|]. intros w pdf_in pdf_out Hin.
  by rewrite (set_fields_readonly_on_files _ _ _ _ _ Hin), Hdoc.
Qed.

Lemma readonly_raises_on_bad_flags_witness :
  text_names mixed_flags
  ∧ annot_at mixed_flags 0 1 = Some (widget "amount" {["/Ff" := PdfStr "4.0"]})
  ∧ existing_flags (widget "amount" {["/Ff" := PdfStr "4.0"]}) = Raise ValueError
  ∧ readonly_document None mixed_flags = Raise ValueError.
Proof.
  assert (Htext : text_names mixed_flags) by evaluated.
  assert (Hflags : existing_flags (widget "amount" {["/Ff" := PdfStr "4.0"]})
                   = Raise ValueError) by evaluated.
  split; [exact Htext|]. split; [reflexivity|]. split; [exact Hflags|].
  apply (readonly_raises_on_bad_flags None mixed_flags 0 1
           (widget "amount" {["/Ff" := PdfStr "4.0"]}) "amount" ValueError Htext).
  - reflexivity.
  - evaluated.
  - exact I.
  - exact Hflags.
Defined.

(** ** Running a stage a second time *)

Lemma fill_annot_twice data annot annot' :
  fill_annot data annot = Ok annot' → fill_annot data annot' = Ok annot'.
Proof.
  unfold fill_annot. destruct (is_named_widget annot) eqn:Htest.
  - destruct (slice_1_m1 (annot !! "/T")) as [key|e] eqn:Hkey; [|done]. simpl.
    destruct (dict_get data key) as [value|] eqn:Hvalue; intros [= <-].
    + rewrite !is_named_widget_insert, Htest by done.
      rewrite !lookup_insert_ne, Hkey by done. simpl. rewrite Hvalue. f_equal.
      apply map_eq. intros k. rewrite !lookup_insert. by repeat case_decide.
    + by rewrite Htest, Hkey; simpl; rewrite Hvalue.
  - intros [= <-]. by rewrite Htest.
Qed.

Lemma readonly_annot_twice fields annot annot' :
  readonly_annot fields annot = Ok annot' → readonly_annot fields annot' = Ok annot'.
Proof.
  unfold readonly_annot. destruct (is_named_widget annot) eqn:Htest.
  - destruct (slice_1_m1 (annot !! "/T")) as [key|e] eqn:Hkey; [|done]. simpl.
    destruct (match fields with
              | None => true
              | Some names => bool_decide (key ∈ names)
              end) eqn:Hlisted.
    + destruct (existing_flags annot) as [flags|e] eqn:Hflags; [|done]. simpl.
      intros [= <-].
      rewrite is_named_widget_insert, Htest by done.
      rewrite lookup_insert_ne, Hkey by done. simpl. rewrite Hlisted.
      unfold existing_flags at 1. rewrite lookup_insert_eq. simpl.
      rewrite insert_twice, <- Z.lor_assoc. done.
    + intros [= <-]. by rewrite Htest, Hkey; simpl; rewrite Hlisted.
  - intros [= <-]. by rewrite Htest.
Qed.

Lemma visibility_annot_twice visibility_map annot annot' :
  visibility_annot visibility_map annot = Ok (Some annot') →
  visibility_annot visibility_map annot' = Ok (Some annot').
Proof.
  unfold visibility_annot. destruct (is_named_widget annot) eqn:Htest.
  - destruct (slice_1_m1 (annot !! "/T")) as [key|e] eqn:Hkey; [|done]. simpl.
    destruct (py_contains key visibility_map) as [[|]|e] eqn:Hlisted; [| |done];
      simpl.
    + destruct (py_getitem visibility_map key) as [shown|e] eqn:Hshown; [|done].
      simpl. destruct (py_truthy shown) eqn:Htrue; [|done]. intros [= <-].
      rewrite is_named_widget_insert, Htest by done.
      rewrite lookup_insert_ne, Hkey by done. simpl. rewrite Hlisted. simpl.
      rewrite Hshown. simpl. by rewrite Htrue, insert_twice.
    + intros [= <-]. by rewrite Htest, Hkey; simpl; rewrite Hlisted.
  - intros [= <-]. by rewrite Htest.
Qed.

(** X3: filling twice with the same data is filling once: on the document
    [fill_pdf] has written, [fill_pdf] with the same data returns that very
    document. *)
Theorem fill_twice (data : list (string * JValue)) (pdf pdf' : Document) :
  fill_document data pdf = Ok pdf' → fill_document data pdf' = Ok pdf'.
Proof. apply each_annot_pdf_twice, fill_annot_twice. Qed.

(** X4: locking twice is locking once: on the document [set_fields_readonly]
    has written, [set_fields_readonly] with the same fields returns that
    very document (the flags it wrote read back as integers with bit 0
    already set). *)
Theorem readonly_twice (fields : option (list string)) (pdf pdf' : Document) :
  readonly_document fields pdf = Ok pdf' → readonly_document fields pdf' = Ok pdf'.
Proof. apply each_annot_pdf_twice, readonly_annot_twice. Qed.

Lemma new_annots_twice visibility_map annots kept :
  new_annots visibility_map annots = Ok kept →
  new_annots visibility_map kept = Ok kept.
Proof.
  intros Hkept. apply new_annots_Ok. exists (Some <$> kept). split.
  - apply Forall2_fmap_r, Forall_Forall2_diag, Forall_forall. intros annot' Hin.
    apply (new_annots_elem _ _ _ _ Hkept) in Hin as (annot & _ & Hannot).
    by eapply visibility_annot_twice.
  - clear. induction kept as [|a l IH]; [done|]. simpl. by f_equal.
Qed.

Lemma visibility_page_twice visibility_map page page' :
  visibility_page visibility_map page = Ok page' →
  visibility_page visibility_map page' = Ok page'.
Proof.
  destruct page as [[[|a l]|] ents].
  - by intros [= <-].
  - rewrite visibility_page_listing.
    destruct (new_annots visibility_map (a :: l)) as [[|a' l']|e] eqn:Hkept;
      try done.
    intros [= <-].
    by rewrite visibility_page_listing, (new_annots_twice _ _ _ Hkept).
  - by intros [= <-].
Qed.

(** X5: hiding and showing twice with the same map is doing it once: on the
    document [set_button_visibility] has written, [set_button_visibility]
    with the same map returns that very document. *)
Theorem visibility_twice (visibility_map : JValue) (pdf pdf' : Document) :
  visibility_document visibility_map pdf = Ok pdf' →
  visibility_document visibility_map pdf' = Ok pdf'.
Proof.
  intros [Hpages Hform]%each_page_Ok. unfold visibility_document.
  rewrite each_page_id.
  - destruct pdf' as [ps form]. simpl in *. subst form.
    by rewrite need_appearances_twice.
  - apply Forall_forall. intros page' [i Hi']%list_elem_of_lookup.
    destruct (Forall2_lookup_r _ _ _ _ _ Hpages Hi') as (page & _ & Hpage).
    by eapply visibility_page_twice.
Qed.

(** ** Filling and locking in either order *)

Lemma Forall2_compose {A B C : Type} (R : A -> B -> Prop) (S : B -> C -> Prop)
    (l : list A) (m : list C) :
  Forall2 (fun a c => ∃ b, R a b ∧ S b c) l m ↔
  ∃ k, Forall2 R l k ∧ Forall2 S k m.
Proof.
  split.
  - induction 1 as [|a c l m (b & Hab & Hbc) _ (k & Hlk & Hkm)].
    + exists []. split; constructor.
    + exists (b :: k). split; by constructor.
  - intros (k & Hlk & Hkm). revert m Hkm.
    induction Hlk as [|a b l k Hab _ IH]; intros m Hkm.
    + inversion Hkm. constructor.
    + inversion Hkm as [|? c ? m' Hbc Hkm']; subst. constructor; eauto.
Qed.

Lemma two_loops_page f g page page' :
  (∃ mid, each_annot f page = Ok mid ∧ each_annot g mid = Ok page') ↔
  Forall2 (fun a a' => ∃ m, f a = Ok m ∧ g m = Ok a') (annots_of page) (annots_of page')
  ∧ page_entries page' = page_entries page
  ∧ (Annots page' = None ↔ Annots page = None).
Proof.
  split.
  - intros (mid & (H1 & E1 & N1)%each_annot_iff & (H2 & E2 & N2)%each_annot_iff).
    split; [apply Forall2_compose; eauto|]. split; [congruence | tauto].
  - intros ((k & H1 & H2)%Forall2_compose & Hents & Hnone).
    exists {| Annots := match Annots page with
                        | None => None
                        | Some _ => Some k
                        end;
              page_entries := page_entries page |}.
    split; apply each_annot_iff; unfold annots_of in *; simpl.
    + destruct (Annots page); simpl in *.
      * split; [done|]. split; [done|]. by split.
      * split; [constructor|done].
    + destruct (Annots page); simpl in *.
      * split; [done|]. split; [done|].
        split; [|done]. intros Hpage'. by apply Hnone in Hpage'.
      * inversion H1; subst. split; [done|]. by split.
Qed.

Lemma two_loops_document f g pdf pdf' :
  (∃ mid, each_page (each_annot f) pdf = Ok mid
          ∧ each_page (each_annot g) mid = Ok pdf') ↔
  Forall2 (fun page page' =>
             Forall2 (fun a a' => ∃ m, f a = Ok m ∧ g m = Ok a')
               (annots_of page) (annots_of page')
             ∧ page_entries page' = page_entries page
             ∧ (Annots page' = None ↔ Annots page = None))
    (pages pdf) (pages pdf')
  ∧ AcroForm pdf' = need_appearances (need_appearances (AcroForm pdf)).
Proof.
  split.
  - intros (mid & [H1 F1]%each_page_Ok & [H2 F2]%each_page_Ok).
    split; [|congruence].
    assert (Hboth : Forall2 (fun page page' =>
                      ∃ mid, each_annot f page = Ok mid ∧ each_annot g mid = Ok page')
                      (pages pdf) (pages pdf'))
      by (apply Forall2_compose; eauto).
    eapply Forall2_impl; [exact Hboth|].
    intros page page' Hpage. by apply two_loops_page.
  - intros [Hpages Hform].
    assert (Hmid : Forall2 (fun page page' =>
                      ∃ mid, each_annot f page = Ok mid ∧ each_annot g mid = Ok page')
                     (pages pdf) (pages pdf')).
    { eapply Forall2_impl; [exact Hpages|].
      intros page page' Hboth. by apply two_loops_page. }
    apply Forall2_compose in Hmid as (mids & H1 & H2).
    exists {| pages := mids; AcroForm := need_appearances (AcroForm pdf) |}.
    split; apply each_page_Ok; by split.
Qed.

(** Both stages let an entry they do not look at through. *)
Lemma fill_annot_insert data annot k v :
  k ≠ "/Subtype" → k ≠ "/T" → k ≠ "/V" → k ≠ "/AS" →
  fill_annot data (<[k := v]> annot)
  = match fill_annot data annot with
    | Ok annot' => Ok (<[k := v]> annot')
    | Raise e => Raise e
    end.
Proof.
  intros Hsub HT HV HAS. unfold fill_annot.
  rewrite is_named_widget_insert, lookup_insert_ne by done.
  destruct (is_named_widget annot); [|done].
  destruct (slice_1_m1 (annot !! "/T")) as [key|e]; [|done]. simpl.
  destruct (dict_get data key) as [value|]; [|done]. f_equal.
  by rewrite (insert_swap _ "/AS" _ k), (insert_swap _ "/V" _ k).
Qed.

Lemma readonly_annot_insert fields annot k v :
  k ≠ "/Subtype" → k ≠ "/T" → k ≠ "/Ff" →
  readonly_annot fields (<[k := v]> annot)
  = match readonly_annot fields annot with
    | Ok annot' => Ok (<[k := v]> annot')
    | Raise e => Raise e
    end.
Proof.
  intros Hsub HT HFf. unfold readonly_annot.
  rewrite is_named_widget_insert, lookup_insert_ne by done.
  destruct (is_named_widget annot); [|done].
  destruct (slice_1_m1 (annot !! "/T")) as [key|e]; [|done]. simpl.
  destruct (match fields with
            | None => true
            | Some names => bool_decide (key ∈ names)
            end); [|done].
  rewrite existing_flags_insert_others by done.
  destruct (existing_flags annot) as [flags|e]; [|done]. simpl. f_equal.
  by rewrite (insert_swap _ "/Ff" _ k).
Qed.

Lemma fill_then_readonly_annot data fields annot annot' :
  (∃ filled, fill_annot data annot = Ok filled
             ∧ readonly_annot fields filled = Ok annot') ↔
  (∃ locked, readonly_annot fields annot = Ok locked
             ∧ fill_annot data locked = Ok annot').
Proof.
  split.
  - intros (filled & Hfill & Hlock).
    pose proof Hfill as [->|[text ->]]%fill_annot_result.
    + exists annot'. split; [done|].
      pose proof Hlock as [->|[flags ->]]%readonly_annot_result; [done|].
      by rewrite fill_annot_insert, Hfill.
    + rewrite !readonly_annot_insert in Hlock by done.
      destruct (readonly_annot fields annot) as [locked|e] eqn:Hlocked; [|done].
      injection Hlock as <-. exists locked. split; [done|].
      pose proof Hlocked as [->|[flags ->]]%readonly_annot_result; [done|].
      rewrite fill_annot_insert, Hfill by done. f_equal.
      by rewrite (insert_swap _ "/Ff" _ "/V"), (insert_swap _ "/Ff" _ "/AS").
  - intros (locked & Hlock & Hfill).
    pose proof Hlock as [->|[flags ->]]%readonly_annot_result.
    + exists annot'. split; [done|].
      pose proof Hfill as [->|[text ->]]%fill_annot_result; [done|].
      by rewrite !readonly_annot_insert, Hlock.
    + rewrite fill_annot_insert in Hfill by done.
      destruct (fill_annot data annot) as [filled|e] eqn:Hfilled; [|done].
      injection Hfill as <-. exists filled. split; [done|].
      pose proof Hfilled as [->|[text ->]]%fill_annot_result; [done|].
      rewrite !readonly_annot_insert, Hlock by done. f_equal.
      by rewrite (insert_swap _ "/Ff" _ "/V"), (insert_swap _ "/Ff" _ "/AS").
Qed.

(** X6: [fill_pdf] and [set_fields_readonly] can be run in either order:
    filling then locking returns a document exactly when locking then
    filling does, and it is the same document. *)
Theorem fill_and_readonly_commute (data : list (string * JValue))
    (fields : option (list string)) (pdf pdf' : Document) :
  (∃ filled, fill_document data pdf = Ok filled
             ∧ readonly_document fields filled = Ok pdf') ↔
  (∃ locked, readonly_document fields pdf = Ok locked
             ∧ fill_document data locked = Ok pdf').
Proof.
  unfold fill_document, fill_page, readonly_document, readonly_page.
  rewrite !two_loops_document.
  split; intros [Hpages Hform]; (split; [|done]);
    (eapply Forall2_impl; [exact Hpages|]);
    intros page page' (Hannots & Hrest); (split; [|done]);
    (eapply Forall2_impl; [exact Hannots|]);
    intros a a' Hboth; by apply fill_then_readonly_annot.
Qed.

(** ** What the stages leave alone *)

Lemma readonly_annot_result_flags fields annot annot' :
  readonly_annot fields annot = Ok annot' →
  annot' = annot
  ∨ ∃ flags, existing_flags annot = Ok flags
             ∧ annot' = <["/Ff" := PdfInt (Z.lor flags 1)]> annot.
Proof.
  unfold readonly_annot. destruct (is_named_widget annot).
  - intros (key & _ & Hresult)%bind_Ok.
    destruct (match fields with
              | None => true
              | Some names => bool_decide (key ∈ names)
              end).
    + apply bind_Ok in Hresult as (flags & Hflags & Hresult).
      injection Hresult as <-. eauto.
    + injection Hresult as <-. by left.
  - intros [= <-]. by left.
Qed.

Lemma each_annot_places body pdf pdf' i j :
  each_page (each_annot body) pdf = Ok pdf' →
  annot_at pdf' i j = None ↔ annot_at pdf i j = None.
Proof.
  intros Hpdf'. split; intros Hnone.
  - destruct (annot_at pdf i j) as [annot|] eqn:Hat; [|done].
    destruct (each_annot_at _ _ _ _ _ _ Hpdf' Hat) as (annot' & _ & Hat').
    congruence.
  - destruct (annot_at pdf' i j) as [annot'|] eqn:Hat'; [|done].
    destruct (each_annot_at_inv _ _ _ _ _ _ Hpdf' Hat') as (annot & _ & Hat).
    congruence.
Qed.

(** X7: [fill_pdf] and [set_fields_readonly] neither add, remove nor move an
    annotation: the document they return has as many pages, an annotation at
    exactly the places where the input has one, and there the annotation of
    the input, in which [fill_pdf] changed no entry other than [/V] and [/AS],
    and [set_fields_readonly] none other than [/Ff], which is either as it
    was or the former flags with bit 0 set (no bit is cleared). *)
Theorem updating_stages_keep_annotations (pdf : Document) :
  (∀ data pdf',
      fill_document data pdf = Ok pdf' →
      List.length (pages pdf') = List.length (pages pdf)
      ∧ ∀ i j,
          (annot_at pdf' i j = None ↔ annot_at pdf i j = None)
          ∧ ∀ annot annot',
              annot_at pdf i j = Some annot → annot_at pdf' i j = Some annot' →
              ∀ k, k ≠ "/V" → k ≠ "/AS" → annot' !! k = annot !! k)
  ∧ (∀ fields pdf',
      readonly_document fields pdf = Ok pdf' →
      List.length (pages pdf') = List.length (pages pdf)
      ∧ ∀ i j,
          (annot_at pdf' i j = None ↔ annot_at pdf i j = None)
          ∧ ∀ annot annot',
              annot_at pdf i j = Some annot → annot_at pdf' i j = Some annot' →
              (∀ k, k ≠ "/Ff" → annot' !! k = annot !! k)
              ∧ (annot' !! "/Ff" = annot !! "/Ff"
                 ∨ ∃ flags,
                     existing_flags annot = Ok flags
                     ∧ annot' !! "/Ff" = Some (PdfInt (Z.lor flags 1))
                     ∧ ∀ b, Z.testbit flags b = true →
                            Z.testbit (Z.lor flags 1) b = true)).
Proof.
  split.
  - intros data pdf' Hpdf'. split.
    { apply each_page_Ok in Hpdf' as [Hpages _]. symmetry. by eapply Forall2_length. }
    intros i j. split; [by eapply each_annot_places|].
    intros annot annot' Hat Hat' k HV HAS.
    destruct (each_annot_at _ _ _ _ _ _ Hpdf' Hat) as (annot'' & Hannot & Hat'').
    rewrite Hat' in Hat''. injection Hat'' as <-.
    apply fill_annot_result in Hannot as [->|[text ->]]; [done|].
    by rewrite !lookup_insert_ne.
  - intros fields pdf' Hpdf'. split.
    { apply each_page_Ok in Hpdf' as [Hpages _]. symmetry. by eapply Forall2_length. }
    intros i j. split; [by eapply each_annot_places|].
    intros annot annot' Hat Hat'.
    destruct (each_annot_at _ _ _ _ _ _ Hpdf' Hat) as (annot'' & Hannot & Hat'').
    rewrite Hat' in Hat''. injection Hat'' as <-.
    apply readonly_annot_result_flags in Hannot as [->|(flags & Hflags & ->)].
    + split; [done|]. by left.
    + split; [intros k Hk; by rewrite lookup_insert_ne|].
      right. exists flags. split; [done|]. split; [apply lookup_insert_eq|].
      intros b Hb. rewrite Z.lor_spec, Hb. done.
Qed.

Lemma delete_F_insert (annot : PdfDict) v :
  delete "/F" (<["/F" := v]> annot) = delete "/F" annot.
Proof.
  apply map_eq. intros k. rewrite !lookup_delete, lookup_insert.
  by repeat case_decide.
Qed.

Lemma new_annots_sublist visibility_map annots kept :
  new_annots visibility_map annots = Ok kept →
  (delete "/F" <$> kept) `sublist_of` (delete "/F" <$> annots).
Proof.
  intros (ks & Hks & ->)%new_annots_Ok.
  induction Hks as [|a k l ks Hk _ IH]; simpl; [constructor|].
  destruct k as [a'|]; simpl.
  - apply visibility_annot_result in Hk as [-> | ->].
    + by constructor.
    + rewrite delete_F_insert. by constructor.
  - by constructor.
Qed.

(** X8: [set_button_visibility], whatever the map, neither adds nor reorders
    annotations and touches no entry other than [/F]: the document it
    returns has as many pages, each with the other entries of the page as
    they were, and the annotations a page lists are, [/F] set aside,
    annotations of the input page in their former order. *)
Theorem visibility_keeps_order (visibility_map : JValue) (pdf pdf' : Document) :
  visibility_document visibility_map pdf = Ok pdf' →
  List.length (pages pdf') = List.length (pages pdf)
  ∧ ∀ i page page',
      pages pdf !! i = Some page → pages pdf' !! i = Some page' →
      page_entries page' = page_entries page
      ∧ (delete "/F" <$> annots_of page') `sublist_of` (delete "/F" <$> annots_of page)
      ∧ (List.length (annots_of page') ≤ List.length (annots_of page))%nat
      ∧ ∀ annot', annot' ∈ annots_of page' →
          ∃ annot, annot ∈ annots_of page
            ∧ (annot' = annot ∨ annot' = <["/F" := PdfInt 0]> annot).
Proof.
  intros [Hpages _]%each_page_Ok.
  split; [symmetry; by eapply Forall2_length|].
  intros i page page' Hi Hi'.
  destruct (Forall2_lookup_l _ _ _ _ _ Hpages Hi) as (page'' & Hi'' & Hpage).
  rewrite Hi' in Hi''. injection Hi'' as <-.
  apply visibility_page_Ok in Hpage as (Hnew & Hents & _).
  split; [done|].
  pose proof (new_annots_sublist _ _ _ Hnew) as Hsub.
  split; [done|]. split.
  - apply sublist_length in Hsub. by rewrite !length_fmap in Hsub.
  - intros annot' Hin.
    apply (new_annots_elem _ _ _ _ Hnew) in Hin as (annot & Hin & Hannot).
    exists annot. split; [done|]. by eapply visibility_annot_result.
Qed.

(** ** [set_button_visibility] on maps of all kinds *)

Lemma visibility_annot_unlisted visibility_map annot key :
  named_widget annot key → py_contains key visibility_map = Ok false →
  visibility_annot visibility_map annot = Ok (Some annot).
Proof.
  intros [Htest Hkey]%named_widget_test Hlisted. unfold visibility_annot.
  by rewrite Htest, Hkey; simpl; rewrite Hlisted.
Qed.






Lemma new_annots_all_kept visibility_map annots :
  Forall (fun a => visibility_annot visibility_map a = Ok (Some a)) annots →
  new_annots visibility_map annots = Ok annots.
Proof.
  induction 1 as [|a l Ha _ IH]; simpl; [done|]. by rewrite Ha, IH.
Qed.

Lemma visibility_page_all_kept visibility_map page :
  Forall (fun a => visibility_annot visibility_map a = Ok (Some a)) (annots_of page) →
  visibility_page visibility_map page = Ok page.
Proof.
  destruct page as [[[|a l]|] ents]; [done| |done].
  intros Hall%new_annots_all_kept.
  change (annots_of {| Annots := Some (a :: l); page_entries := ents |})
    with (a :: l) in Hall.
  by rewrite visibility_page_listing, Hall.
Qed.

(** X9: with a map none of whose keys is the name of a widget of the
    document (the test [key in visibility_map] is false for every named
    widget: an empty dictionary, an empty array, ...), [set_button_visibility]
    returns the pages as they are. *)
Theorem visibility_without_match (visibility_map : JValue) (pdf : Document) :
  text_names pdf →
  all_annots (fun annot => ∀ key, named_widget annot key →
                                  py_contains key visibility_map = Ok false) pdf →
  visibility_document visibility_map pdf
  = Ok {| pages := pages pdf; AcroForm := need_appearances (AcroForm pdf) |}.
Proof.
  intros Htext Hunlisted. apply each_page_id.
  pose proof (all_annots_and _ _ _ Htext Hunlisted) as Hboth.
  eapply Forall_impl; [exact Hboth|]. intros page Hpage.
  apply visibility_page_all_kept.
  eapply Forall_impl; [exact Hpage|]. intros annot [Hannot Hkeys]. simpl in *.
  destruct (named_widget_or_not annot Hannot) as [[key Hkey]|Hnot].
  - eapply visibility_annot_unlisted; eauto.
  - by apply visibility_annot_other.
Qed.


(** ** [lambda_handler]: failures, success and what is uploaded *)

Lemma body_dict_or_not (body : JValue) :
  (∃ entries, body = JDict entries) ∨ (∀ entries, body ≠ JDict entries).
Proof. destruct body; eauto. Qed.

(** X11: a failing invocation uploads nothing.  A body that is no JSON
    object raises [AttributeError] and a template path that names no object
    of the bucket (or is no non-empty string) raises [S3Error], both before
    any file is written; and whenever the handler raises, at any step, the
    objects of the bucket are as they were. *)
Theorem handler_failure_uploads_nothing (uuid4 : string)
    (sign : string -> string -> Z -> string) (body : JValue) (w : World) :
  ((∀ entries, body ≠ JDict entries) →
   lambda_handler uuid4 sign body w = (w, Raise AttributeError))
  ∧ (∀ entries,
       body = JDict entries →
       s3_object w BUCKET_NAME (template_path_of entries) = None →
       lambda_handler uuid4 sign body w = (w, Raise S3Error))
  ∧ (∀ e,
       snd (lambda_handler uuid4 sign body w) = Raise e →
       s3_objects (fst (lambda_handler uuid4 sign body w)) = s3_objects w).
Proof.
  split; [apply handler_not_dict|].
  split; [intros entries ->; apply handler_no_template|].
  intros e. destruct (body_dict_or_not body) as [[entries ->]|Hbody].
  2:{ by rewrite handler_not_dict. }
  destruct (s3_object w BUCKET_NAME (template_path_of entries)) as [template|]
    eqn:Hobject.
  2:{ by rewrite handler_no_template. }
  rewrite (handler_run _ _ _ _ _ Hobject).
  destruct (fill_document entries template) as [filled|?]; [|done].
  destruct (readonly_document None filled) as [locked|?]; [|done].
  by destruct (visibility_document (visibility_map_of entries) locked).
Qed.

(** X12: the handler answers exactly when the body is a JSON object, its
    template is in the bucket and the three stages return; the answer is
    then status 200 with the URL signed for [output/<uuid4>.pdf] and 3600
    seconds, the document of the last stage is stored under that key, no
    other object of the bucket is touched, and [/tmp] holds the template and
    that document. *)
Theorem handler_success (uuid4 : string)
    (sign : string -> string -> Z -> string) (body : JValue) (w : World)
    (response : Response) :
  (snd (lambda_handler uuid4 sign body w) = Ok response ↔
   response = answer uuid4 sign
   ∧ ∃ entries template visible,
       body = JDict entries
       ∧ s3_object w BUCKET_NAME (template_path_of entries) = Some template
       ∧ pipeline entries template = Ok visible)
  ∧ (snd (lambda_handler uuid4 sign body w) = Ok response →
     statusCode response = 200%Z
     ∧ response_body response
       = JDict [("url", JStr (sign BUCKET_NAME ("output/" ++ uuid4 ++ ".pdf") 3600%Z))]
     ∧ ∃ entries template visible,
         body = JDict entries
         ∧ s3_object w BUCKET_NAME (template_path_of entries) = Some template
         ∧ pipeline entries template = Ok visible
         ∧ s3_objects (fst (lambda_handler uuid4 sign body w))
           = <[(BUCKET_NAME, "output/" ++ uuid4 ++ ".pdf") := visible]> (s3_objects w)
         ∧ tmp (fst (lambda_handler uuid4 sign body w)) !! "/tmp/template.pdf"
           = Some template
         ∧ tmp (fst (lambda_handler uuid4 sign body w)) !! "/tmp/visibility.pdf"
           = Some visible).
Proof.
  assert (Hok : snd (lambda_handler uuid4 sign body w) = Ok response →
                response = answer uuid4 sign
                ∧ ∃ entries template visible,
                    body = JDict entries
                    ∧ s3_object w BUCKET_NAME (template_path_of entries) = Some template
                    ∧ pipeline entries template = Ok visible
                    ∧ s3_objects (fst (lambda_handler uuid4 sign body w))
                      = <[(BUCKET_NAME, "output/" ++ uuid4 ++ ".pdf") := visible]>
                          (s3_objects w)
                    ∧ tmp (fst (lambda_handler uuid4 sign body w)) !! "/tmp/template.pdf"
                      = Some template
                    ∧ tmp (fst (lambda_handler uuid4 sign body w)) !! "/tmp/visibility.pdf"
                      = Some visible).
  { destruct (body_dict_or_not body) as [[entries ->]|Hbody].
    2:{ by rewrite handler_not_dict. }
    destruct (s3_object w BUCKET_NAME (template_path_of entries)) as [template|]
      eqn:Hobject.
    2:{ by rewrite handler_no_template. }
    rewrite (handler_run _ _ _ _ _ Hobject).
    destruct (fill_document entries template) as [filled|?] eqn:Hfilled; [|done].
    destruct (readonly_document None filled) as [locked|?] eqn:Hlocked; [|done].
    destruct (visibility_document (visibility_map_of entries) locked)
      as [visible|?] eqn:Hvisible; [|done].
    simpl. intros [= <-]. split; [done|].
    exists entries, template, visible.
    split; [done|]. split; [done|].
    split; [unfold pipeline; rewrite Hfilled; simpl; by rewrite Hlocked|].
    split; [done|].
    split; [|apply lookup_insert_eq].
    rewrite !lookup_insert_ne by done. apply lookup_insert_eq. }
  split; [split|].
  - intros Hrun. destruct (Hok Hrun) as (-> & entries & template & visible & H).
    split; [done|]. exists entries, template, visible. tauto.
  - intros (-> & entries & template & visible & -> & Hobject & Hpipeline).
    by rewrite (handler_result _ _ _ _ _ Hobject), Hpipeline.
  - intros Hrun. destruct (Hok Hrun) as (-> & entries & template & visible & H).
    split; [done|]. split; [done|]. exists entries, template, visible. tauto.
Qed.

(** X13: in the document the handler uploads, every named widget is
    read-only: its [/Ff] is an integer with bit 0 set, whatever the request
    and the template. *)
Theorem uploaded_widgets_are_readonly (uuid4 : string)
    (sign : string -> string -> Z -> string) (body : JValue) (w : World)
    (response : Response) :
  snd (lambda_handler uuid4 sign body w) = Ok response →
  ∃ visible,
    s3_objects (fst (lambda_handler uuid4 sign body w))
      !! (BUCKET_NAME, "output/" ++ uuid4 ++ ".pdf") = Some visible
    ∧ all_annots (fun annot => ∀ key, named_widget annot key →
                     ∃ flags, annot !! "/Ff" = Some (PdfInt flags)
                              ∧ Z.testbit flags 0 = true) visible.
Proof.
  destruct (body_dict_or_not body) as [[entries ->]|Hbody].
  2:{ by rewrite handler_not_dict. }
  destruct (s3_object w BUCKET_NAME (template_path_of entries)) as [template|]
    eqn:Hobject.
  2:{ by rewrite handler_no_template. }
  rewrite (handler_run _ _ _ _ _ Hobject).
  destruct (fill_document entries template) as [filled|?]; [|done].
  destruct (readonly_document None filled) as [locked|?] eqn:Hlocked; [|done].
  destruct (visibility_document (visibility_map_of entries) locked)
    as [visible|?] eqn:Hvisible; [|done].
  simpl. intros _. exists visible. split; [apply lookup_insert_eq|].
  eapply (visibility_document_all
            (fun annot => ∀ key, named_widget annot key →
               ∃ flags, annot !! "/Ff" = Some (PdfInt flags)
                        ∧ Z.testbit flags 0 = true));
    [|exact Hvisible|].
  2:{ eapply (each_annot_all (fun _ => True)); [|exact Hlocked|].
      - intros annot annot' _ Hannot key Hkey.
        assert (Hkey0 : named_widget annot key).
        { apply readonly_annot_result in Hannot as [->|[flags ->]]; [done|].
          by apply named_widget_insert in Hkey. }
        rewrite (readonly_annot_all _ _ Hkey0) in Hannot.
        apply bind_Ok in Hannot as (flags & _ & [= <-]).
        exists (Z.lor flags 1). split; [apply lookup_insert_eq | apply lor_1_bits].
      - unfold all_annots. apply Forall_forall. intros page _.
        by apply Forall_forall. }
  simpl. intros annot annot' Hannot [-> | ->]%visibility_annot_result; [done|].
  intros key Hkey%named_widget_insert; [|done..].
  destruct (Hannot key Hkey) as (flags & Hflags & Hbit).
  exists flags. by rewrite lookup_insert_ne.
Qed.

(** X14: what the handler answers and what it leaves in the bucket do not
    depend on the files an earlier invocation left in [/tmp]. *)
Theorem handler_ignores_old_files (uuid4 : string)
    (sign : string -> string -> Z -> string) (body : JValue) (w w' : World) :
  s3_objects w = s3_objects w' →
  snd (lambda_handler uuid4 sign body w) = snd (lambda_handler uuid4 sign body w')
  ∧ s3_objects (fst (lambda_handler uuid4 sign body w))
    = s3_objects (fst (lambda_handler uuid4 sign body w')).
Proof.
  intros Hbucket.
  destruct (body_dict_or_not body) as [[entries ->]|Hbody].
  2:{ by rewrite !handler_not_dict. }
  assert (Hobject : s3_object w BUCKET_NAME (template_path_of entries)
                    = s3_object w' BUCKET_NAME (template_path_of entries)).
  { unfold s3_object. by rewrite Hbucket. }
  destruct (s3_object w' BUCKET_NAME (template_path_of entries)) as [template|]
    eqn:Hobject'.
  2:{ by rewrite !handler_no_template. }
  rewrite (handler_run _ _ _ _ _ Hobject), (handler_run _ _ _ _ _ Hobject').
  destruct (fill_document entries template) as [filled|?]; [|done].
  destruct (readonly_document None filled) as [locked|?]; [|done].
  destruct (visibility_document (visibility_map_of entries) locked); [|done].
  simpl. by rewrite Hbucket.
Qed.

(** ** The three stages in a row *)

Lemma annot_elem_at pdf i page annot :
  pages pdf !! i = Some page → annot ∈ annots_of page →
  ∃ j, annot_at pdf i j = Some annot.
Proof.
  intros Hi [j Hj]%list_elem_of_lookup. exists j. unfold annot_at.
  by rewrite Hi.
Qed.

(** X15: the three stages as the handler chains them add nothing to the
    template: the final document has as many pages, and every annotation a
    page lists is an annotation of the same page of the template in which
    no entry other than [/V], [/AS], [/Ff] and [/F] differs. *)
Theorem pipeline_changes_four_entries (entries : list (string * JValue))
    (template visible : Document) :
  pipeline entries template = Ok visible →
  List.length (pages visible) = List.length (pages template)
  ∧ ∀ i page page' annot',
      pages template !! i = Some page → pages visible !! i = Some page' →
      annot' ∈ annots_of page' →
      ∃ annot,
        annot ∈ annots_of page
        ∧ ∀ k, k ≠ "/V" → k ≠ "/AS" → k ≠ "/Ff" → k ≠ "/F" →
               annot' !! k = annot !! k.
Proof.
  unfold pipeline.
  intros (filled & Hfilled & (locked & Hlocked & Hvisible)%bind_Ok)%bind_Ok.
  pose proof Hfilled as [Hpages1 _]%each_page_Ok.
  pose proof Hlocked as [Hpages2 _]%each_page_Ok.
  pose proof Hvisible as [Hpages3 _]%each_page_Ok.
  split.
  { rewrite <- (Forall2_length _ _ _ Hpages3), <- (Forall2_length _ _ _ Hpages2).
    symmetry. by eapply Forall2_length. }
  intros i page page' annot' Hi Hi' Hin'.
  destruct (Forall2_lookup_r _ _ _ _ _ Hpages3 Hi') as (page2 & Hi2 & Hpage').
  apply visibility_page_Ok in Hpage' as (Hnew & _).
  destruct (proj1 (new_annots_elem _ _ _ _ Hnew) Hin') as (annot2 & Hin2 & Hannot').
  destruct (annot_elem_at _ _ _ _ Hi2 Hin2) as [j Hat2].
  destruct (each_annot_at_inv _ _ _ _ _ _ Hlocked Hat2) as (annot1 & Hannot2 & Hat1).
  destruct (each_annot_at_inv _ _ _ _ _ _ Hfilled Hat1) as (annot & Hannot1 & Hat).
  apply annot_at_elem in Hat as (page0 & Hi0 & Hin).
  rewrite Hi in Hi0. injection Hi0 as <-.
  exists annot. split; [done|]. intros k HV HAS HFf HF.
  apply visibility_annot_result in Hannot' as [-> | ->];
    apply readonly_annot_result in Hannot2 as [->|[flags ->]];
    apply fill_annot_result in Hannot1 as [->|[text ->]];
    by rewrite ?lookup_insert_ne.
Qed.

(** X16: when the request gives a dictionary as [visibility_map], the
    document the handler uploads lists no widget whose name is mapped to a
    false value: every named widget of it whose name is a key of the map is
    mapped to a true value and has [/F] equal to 0. *)
Theorem uploaded_document_hides (uuid4 : string)
    (sign : string -> string -> Z -> string) (w : World)
    (entries visibility : list (string * JValue)) (response : Response) :
  dict_get entries "visibility_map" = Some (JDict visibility) →
  snd (lambda_handler uuid4 sign (JDict entries) w) = Ok response →
  ∃ visible,
    s3_objects (fst (lambda_handler uuid4 sign (JDict entries) w))
      !! (BUCKET_NAME, "output/" ++ uuid4 ++ ".pdf") = Some visible
    ∧ all_annots (fun annot' => ∀ key shown,
                     named_widget annot' key → dict_get visibility key = Some shown →
                     py_truthy shown = true ∧ annot' !! "/F" = Some (PdfInt 0))
        visible.
Proof.
  intros Hmap.
  destruct (s3_object w BUCKET_NAME (template_path_of entries)) as [template|]
    eqn:Hobject.
  2:{ by rewrite handler_no_template. }
  rewrite (handler_run _ _ _ _ _ Hobject).
  destruct (fill_document entries template) as [filled|?]; [|done].
  destruct (readonly_document None filled) as [locked|?]; [|done].
  destruct (visibility_document (visibility_map_of entries) locked)
    as [visible|?] eqn:Hvisible; [|done].
  simpl. intros _. exists visible. split; [apply lookup_insert_eq|].
  unfold visibility_map_of in Hvisible. rewrite Hmap in Hvisible. simpl in Hvisible.
  eapply (visibility_document_all (fun _ => True)); [|exact Hvisible|].
  2:{ unfold all_annots. apply Forall_forall. intros page _. by apply Forall_forall. }
  simpl. intros annot annot' _ Hannot key shown Hkey' Hshown.
  assert (Hkey : named_widget annot key).
  { pose proof Hannot as [-> | ->]%visibility_annot_result; [done|].
    by apply named_widget_insert in Hkey'. }
  rewrite (visibility_annot_named _ _ _ Hkey), Hshown in Hannot.
  destruct (py_truthy shown); [|done]. injection Hannot as <-.
  split; [done|]. apply lookup_insert_eq.
Qed.

(** ** The further properties on the sample documents *)

Lemma fill_twice_witness :
  ∃ pdf',
    fill_document [("name", JStr "Alice")] two_widgets = Ok pdf'
    ∧ fill_document [("name", JStr "Alice")] pdf' = Ok pdf'.
Proof.
  eexists. split; [vm_compute; reflexivity|].
  apply (fill_twice [("name", JStr "Alice")] two_widgets).
  vm_compute. reflexivity.
Defined.

Lemma readonly_twice_witness :
  ∃ pdf',
    readonly_document None flagged = Ok pdf'
    ∧ readonly_document None pdf' = Ok pdf'.
Proof.
  eexists. split; [vm_compute; reflexivity|].
  apply (readonly_twice None flagged). vm_compute. reflexivity.
Defined.

Lemma visibility_twice_witness :
  ∃ pdf',
    visibility_document (JDict [("signature", JBool false); ("name", JBool true)])
      two_widgets = Ok pdf'
    ∧ visibility_document (JDict [("signature", JBool false); ("name", JBool true)])
        pdf' = Ok pdf'.
Proof.
  eexists. split; [vm_compute; reflexivity|].
  apply (visibility_twice _ two_widgets). vm_compute. reflexivity.
Defined.

Lemma fill_and_readonly_commute_witness :
  ∃ pdf',
    (∃ filled, fill_document [("name", JStr "Alice")] mixed_flags = Ok filled
               ∧ readonly_document (Some ["name"]) filled = Ok pdf')
    ∧ (∃ locked, readonly_document (Some ["name"]) mixed_flags = Ok locked
                 ∧ fill_document [("name", JStr "Alice")] locked = Ok pdf').
Proof.
  assert (Hfirst : ∃ pdf' filled,
            fill_document [("name", JStr "Alice")] mixed_flags = Ok filled
            ∧ readonly_document (Some ["name"]) filled = Ok pdf')
    by (eexists; eexists; split; vm_compute; reflexivity).
  destruct Hfirst as [pdf' Hfirst]. exists pdf'. split; [exact Hfirst|].
  exact (proj1 (fill_and_readonly_commute _ _ mixed_flags pdf') Hfirst).
Defined.

Lemma updating_stages_keep_annotations_witness :
  ∃ pdf',
    readonly_document None flagged = Ok pdf'
    ∧ List.length (pages pdf') = 2%nat
    ∧ annot_at pdf' 1 0 = None.
Proof.
  assert (Hlocked : ∃ pdf', readonly_document None flagged = Ok pdf')
    by (eexists; vm_compute; reflexivity).
  destruct Hlocked as [pdf' Hlocked]. exists pdf'. split; [exact Hlocked|].
  destruct (proj2 (updating_stages_keep_annotations flagged) None pdf' Hlocked)
    as [Hlength Hplaces].
  split; [exact Hlength|]. by apply (proj1 (Hplaces 1%nat 0%nat)).
Defined.

Lemma visibility_keeps_order_witness :
  ∃ pdf',
    visibility_document (JDict [("name", JInt 0)]) two_widgets = Ok pdf'
    ∧ List.length (pages pdf') = 1%nat.
Proof.
  assert (Hvisible : ∃ pdf',
            visibility_document (JDict [("name", JInt 0)]) two_widgets = Ok pdf')
    by (eexists; vm_compute; reflexivity).
  destruct Hvisible as [pdf' Hvisible]. exists pdf'. split; [exact Hvisible|].
  exact (proj1 (visibility_keeps_order _ two_widgets pdf' Hvisible)).
Defined.

Lemma visibility_without_match_witness :
  text_names two_widgets
  ∧ visibility_document (JDict [("date", JBool false)]) two_widgets
    = Ok {| pages := pages two_widgets;
            AcroForm := need_appearances (AcroForm two_widgets) |}.
Proof.
  assert (Htext : text_names two_widgets) by evaluated.
  split; [exact Htext|].
  apply (visibility_without_match _ two_widgets Htext).
  assert (Hname : named_widget
            (widget "name" (<["/Ff" := PdfStr "0"]> {["/F" := PdfStr "0"]})) "name")
    by evaluated.
  assert (Hsignature : named_widget
            (widget "signature" (<["/Ff" := PdfStr "0"]> {["/F" := PdfStr "0"]}))
            "signature") by evaluated.
  repeat constructor; intros key Hkey.
  - by rewrite (named_widget_unique _ _ _ Hkey Hname).
  - by rewrite (named_widget_unique _ _ _ Hkey Hsignature).
Defined.


Lemma handler_failure_uploads_nothing_witness :
  lambda_handler sample_uuid4 sample_sign (JList [JStr "name"]) sample_world
  = (sample_world, Raise AttributeError)
  ∧ lambda_handler sample_uuid4 sample_sign
      (JDict [("template_path", JStr "input/missing.pdf")]) sample_world
    = (sample_world, Raise S3Error)
  ∧ s3_objects (fst (lambda_handler sample_uuid4 sample_sign
                       (JDict [("name", JStr "Alice")]) sample_world))
    = s3_objects sample_world.
Proof.
  split; [|split].
  - apply (proj1 (handler_failure_uploads_nothing _ _ _ _)).
    intros entries. discriminate.
  - apply (proj1 (proj2 (handler_failure_uploads_nothing _ _ _ _)) _ eq_refl).
    vm_compute. reflexivity.
  - apply (proj2 (proj2 (handler_failure_uploads_nothing _ _ _ _)) TypeError).
    vm_compute. reflexivity.
Defined.

Lemma handler_success_witness :
  snd (lambda_handler sample_uuid4 sample_sign (JDict sample_request) sample_world)
  = Ok (answer sample_uuid4 sample_sign)
  ∧ statusCode (answer sample_uuid4 sample_sign) = 200%Z
  ∧ ∃ visible,
      pipeline sample_request two_widgets = Ok visible
      ∧ s3_objects (fst (lambda_handler sample_uuid4 sample_sign
                           (JDict sample_request) sample_world))
        = <[(BUCKET_NAME, "output/" ++ sample_uuid4 ++ ".pdf") := visible]>
            (s3_objects sample_world).
Proof.
  assert (Hrun : snd (lambda_handler sample_uuid4 sample_sign (JDict sample_request)
                        sample_world) = Ok (answer sample_uuid4 sample_sign))
    by (vm_compute; reflexivity).
  split; [exact Hrun|].
  destruct (proj2 (handler_success _ _ _ _ _) Hrun)
    as (Hstatus & _ & entries & template & visible & Hbody & Hobject & Hpipeline
        & Hbucket & _).
  split; [exact Hstatus|]. exists visible. split; [|exact Hbucket].
  injection Hbody as <-.
  assert (Htemplate : s3_object sample_world BUCKET_NAME (template_path_of sample_request)
                      = Some two_widgets) by (vm_compute; reflexivity).
  rewrite Htemplate in Hobject. by injection Hobject as <-.
Defined.

Lemma uploaded_widgets_are_readonly_witness :
  snd (lambda_handler sample_uuid4 sample_sign (JDict sample_request) sample_world)
  = Ok (answer sample_uuid4 sample_sign)
  ∧ ∃ visible,
      s3_objects (fst (lambda_handler sample_uuid4 sample_sign
                         (JDict sample_request) sample_world))
        !! (BUCKET_NAME, "output/" ++ sample_uuid4 ++ ".pdf") = Some visible
      ∧ all_annots (fun annot => ∀ key, named_widget annot key →
                       ∃ flags, annot !! "/Ff" = Some (PdfInt flags)
                                ∧ Z.testbit flags 0 = true) visible.
Proof.
  assert (Hrun : snd (lambda_handler sample_uuid4 sample_sign (JDict sample_request)
                        sample_world) = Ok (answer sample_uuid4 sample_sign))
    by (vm_compute; reflexivity).
  split; [exact Hrun|].
  exact (uploaded_widgets_are_readonly _ _ _ _ _ Hrun).
Defined.

Lemma handler_ignores_old_files_witness :
  s3_objects sample_world = s3_objects warm_world
  ∧ snd (lambda_handler sample_uuid4 sample_sign (JDict sample_request) sample_world)
    = snd (lambda_handler sample_uuid4 sample_sign (JDict sample_request) warm_world).
Proof.
  assert (Hbucket : s3_objects sample_world = s3_objects warm_world) by reflexivity.
  split; [exact Hbucket|].
  exact (proj1 (handler_ignores_old_files _ _ _ _ _ Hbucket)).
Defined.

Lemma pipeline_changes_four_entries_witness :
  ∃ visible,
    pipeline sample_request two_widgets = Ok visible
    ∧ List.length (pages visible) = 1%nat.
Proof.
  assert (Hpipeline : ∃ visible, pipeline sample_request two_widgets = Ok visible)
    by (eexists; vm_compute; reflexivity).
  destruct Hpipeline as [visible Hpipeline]. exists visible.
  split; [exact Hpipeline|].
  exact (proj1 (pipeline_changes_four_entries _ _ _ Hpipeline)).
Defined.

Lemma uploaded_document_hides_witness :
  dict_get sample_request "visibility_map" = Some (JDict [("signature", JBool false)])
  ∧ snd (lambda_handler sample_uuid4 sample_sign (JDict sample_request) sample_world)
    = Ok (answer sample_uuid4 sample_sign)
  ∧ ∃ visible,
      s3_objects (fst (lambda_handler sample_uuid4 sample_sign
                         (JDict sample_request) sample_world))
        !! (BUCKET_NAME, "output/" ++ sample_uuid4 ++ ".pdf") = Some visible
      ∧ all_annots (fun annot' => ∀ key shown,
                       named_widget annot' key →
                       dict_get [("signature", JBool false)] key = Some shown →
                       py_truthy shown = true ∧ annot' !! "/F" = Some (PdfInt 0))
          visible.
Proof.
  assert (Hmap : dict_get sample_request "visibility_map"
                 = Some (JDict [("signature", JBool false)])) by reflexivity.
  assert (Hrun : snd (lambda_handler sample_uuid4 sample_sign (JDict sample_request)
                        sample_world) = Ok (answer sample_uuid4 sample_sign))
    by (vm_compute; reflexivity).
  split; [exact Hmap|]. split; [exact Hrun|].
  exact (uploaded_document_hides _ _ _ _ _ _ Hmap Hrun).
Defined.
